(** * convertToPropTypes: TypeScript type nodes to PropTypes validator expressions

    A shallow embedding of [src/convertToPropTypes.ts] and the properties its
    specification states about it.  The Babel AST nodes the converter reads
    and builds are inductive types; a [null] result is [None]; a call that
    throws is [Throw]; the object that maps type names to property lists is
    a finite map of its own properties, over [Object.prototype]. *)

From Stdlib Require Import Ascii String Bool List Lia.
From stdpp Require Import base option list strings gmap.

Local Open Scope string_scope.
Local Open Scope list_scope.

(** ** The Babel AST, as far as the converter reads and builds it *)

Module AST.

(** Expression nodes.  The converter builds identifiers, member accesses,
    calls, array and object literals, and passes the literal of a literal type
    through untouched.  A numeric literal is kept as its source text: the
    converter never looks at the number. *)
#[warnings="-register-all"]
Inductive Expression : Type :=
| Identifier (name : string)
| StringLiteral (value : string)
| NumericLiteral (raw : string)
| BooleanLiteral (value : bool)
| MemberExpression (object property : Expression)
| CallExpression (callee : Expression) (arguments : list Expression)
| ArrayExpression (elements : list Expression)
| ObjectExpression (properties : list (Expression * Expression)).

(** [t.ObjectProperty]: a key node and a value node. *)
Definition ObjectProperty : Type := (Expression * Expression)%type.

(** [PropType] is an alias of [./types] for the expression nodes a validator
    is made of. *)
Definition PropType : Type := Expression.

(** [t.TSEntityName]: an identifier, or a qualified name (the node's [left]
    and the name of its [right] identifier). *)
Inductive TSEntityName : Type :=
| EntityIdentifier (name : string)
| TSQualifiedName (qualifier : TSEntityName) (member : string).

(** A field declared [?: boolean | null]: absent, [null], or a boolean. *)
Inductive Nullish (A : Type) : Type :=
| Undefined
| Null
| Defined (a : A).
Arguments Undefined {A}.
Arguments Null {A}.
Arguments Defined {A} a.

(** [t.TSPropertySignature], over the type of type nodes.  [typeAnnotation]
    is [TSTypeAnnotation | null]; a [TSTypeAnnotation] node only wraps its
    type, so it is kept as [option] of the type. *)
Record PropertySignature (T : Type) : Type := mkPropertySignature {
  key : Expression;
  typeAnnotation : option T;
  optional : Nullish bool
}.
Arguments mkPropertySignature {T} key typeAnnotation optional.
Arguments key {T} p.
Arguments typeAnnotation {T} p.
Arguments optional {T} p.

(** [t.TSTypeElement]: the members of a type literal. *)
Inductive TypeElement (T : Type) : Type :=
| TSPropertySignatureNode (property : PropertySignature T)
| TSIndexSignature (indexTypeAnnotation : option T)
| TSMethodSignature (methodKey : Expression)
| TSCallSignatureDeclaration
| TSConstructSignatureDeclaration.
Arguments TSPropertySignatureNode {T} property.
Arguments TSIndexSignature {T} indexTypeAnnotation.
Arguments TSMethodSignature {T} methodKey.
Arguments TSCallSignatureDeclaration {T}.
Arguments TSConstructSignatureDeclaration {T}.

(** [t.TSType].  [TSOtherType] stands for every kind the converter has no
    test for ([TSAnyKeyword], [TSTupleType], ...), named by its node type. *)
#[warnings="-register-all"]
Inductive TSType : Type :=
| TSStringKeyword
| TSNumberKeyword
| TSBooleanKeyword
| TSSymbolKeyword
| TSFunctionType
| TSTypeReference (typeName : TSEntityName) (typeParameters : option (list TSType))
| TSArrayType (elementType : TSType)
| TSTypeLiteral (members : list (TypeElement TSType))
| TSUnionType (types : list TSType)
| TSIntersectionType (types : list TSType)
| TSParenthesizedType (inner : TSType)
| TSLiteralType (literal : Expression)
| TSOtherType (kind : string).

Definition TSTypeElement : Type := TypeElement TSType.
Definition TSPropertySignature : Type := PropertySignature TSType.

Definition isTSLiteralType (type : TSType) : bool :=
  match type with TSLiteralType _ => true | _ => false end.

Definition isTSPropertySignature (member : TSTypeElement) : bool :=
  match member with TSPropertySignatureNode _ => true | _ => false end.

Definition isTSIndexSignature (member : TSTypeElement) : bool :=
  match member with TSIndexSignature _ => true | _ => false end.

(** [(param as t.TSLiteralType).literal]: present on literal types only. *)
Definition literalOf (param : TSType) : option Expression :=
  match param with TSLiteralType literal => Some literal | _ => None end.

(** [members.filter(member => t.isTSPropertySignature(member)) as
    t.TSPropertySignature[]]: the property signatures among the members, in
    order. *)
Fixpoint propertySignatures (members : list TSTypeElement) : list TSPropertySignature :=
  match members with
  | [] => []
  | member :: rest =>
      match member with
      | TSPropertySignatureNode property => property :: propertySignatures rest
      | _ => propertySignatures rest
      end
  end.

End AST.
Export AST.

(** ** Strings, as JavaScript uses them here *)

Module JSString.

(** [s.endsWith(suffix)]: the last [length suffix] characters of [s] are
    [suffix].  The suffixes the converter looks for are ASCII, for which the
    test gives the same answer on the bytes of a string as on its UTF-16 code
    units. *)
Definition endsWith (s suffix : string) : bool :=
  let n := String.length s in
  let m := String.length suffix in
  (m <=? n)%nat && String.eqb (substring (n - m) m s) suffix.

(** No character of [s] is a dot. *)
Fixpoint dotfree (s : string) : bool :=
  match s with
  | EmptyString => true
  | String c rest => negb (Ascii.eqb c ".") && dotfree rest
  end.

End JSString.
Export JSString.

(** ** Calls that return and calls that throw *)

Module Outcome.

(** The exceptions the converter can raise are [TypeError]s; their messages
    are those of the engine and of the AST builders, and are not kept. *)
Inductive Error : Type :=
| TypeError.

Inductive Result (A : Type) : Type :=
| Return (a : A)
| Throw (e : Error).
Arguments Return {A} a.
Arguments Throw {A} e.

Definition bind {A B : Type} (m : Result A) (k : A -> Result B) : Result B :=
  match m with
  | Return a => k a
  | Throw e => Throw e
  end.

Section Collect.

Context {A B : Type} (f : A -> Result (option B)).

(** A loop over [l] that pushes [f x] when it is present, and that the first
    [f x] to throw brings to an end. *)
Fixpoint collect (l : list A) : Result (list B) :=
  match l with
  | [] => Return []
  | x :: rest =>
      match f x with
      | Throw e => Throw e
      | Return r =>
          match collect rest with
          | Throw e => Throw e
          | Return out => Return (match r with Some y => y :: out | None => out end)
          end
      end
  end.

End Collect.

(** The lists that the calls return, one after the other, up to the first
    call that throws. *)
Fixpoint joined {A : Type} (calls : list (Result (list A))) : Result (list A) :=
  match calls with
  | [] => Return []
  | call :: rest =>
      match call with
      | Throw e => Throw e
      | Return out =>
          match joined rest with
          | Throw e => Throw e
          | Return out' => Return (out ++ out')
          end
      end
  end.

End Outcome.
Export Outcome.

Notation "'let*' x ':=' m 'in' k" := (bind m (fun x => k))
  (at level 10, x name, m at level 100, k at level 200).

(** ** The converter *)

(** Modelled from the spec: the helper [./getTypeName] is imported by the
    source but is not part of it.  The specification describes it as the
    capability that flattens a possibly qualified type-reference name (such as
    [A.B]) into its dotted string form, and that always succeeds. *)
Fixpoint getTypeName (typeName : TSEntityName) : string :=
  match typeName with
  | EntityIdentifier name => name
  | TSQualifiedName qualifier member => getTypeName qualifier +:+ "." +:+ member
  end.

Definition isReactTypeMatch (name type reactImportedName : string) : bool :=
  String.eqb name type
  || String.eqb name ("React." +:+ type)
  || String.eqb name (reactImportedName +:+ "." +:+ type).

(** [optional ? ... : ...]: only [true] is truthy among the values of a
    [boolean | null | undefined] flag. *)
Definition truthy (optional : Nullish bool) : bool :=
  match optional with
  | Defined true => true
  | _ => false
  end.

Definition wrapIsRequired (propType : PropType) (optional : Nullish bool) : PropType :=
  if truthy optional then propType
  else MemberExpression propType (Identifier "isRequired").

Definition createMember (value : Expression) : Expression :=
  MemberExpression (Identifier "PropTypes") value.

Definition createCall (value : Expression) (args : list Expression) : Expression :=
  CallExpression (createMember value) args.

(** The key that the builder [t.objectProperty] accepts for a property that
    is not computed: an identifier, a string literal or a numeric literal. *)
Definition isPropertyKey (key : Expression) : bool :=
  match key with
  | Identifier _ | StringLiteral _ | NumericLiteral _ => true
  | _ => false
  end.

(** [t.objectProperty(key, value)].  The converter passes no [computed]
    flag, so the builder checks the key as that of a property that is not
    computed, and throws on any other key (the member access of
    [[Symbol.iterator]: T], say).  The other builders the converter calls
    ([t.identifier], [t.memberExpression], [t.callExpression],
    [t.arrayExpression], [t.objectExpression]) accept all it gives them. *)
Definition objectProperty (key value : Expression) : Result ObjectProperty :=
  if isPropertyKey key then Return (key, value) else Throw TypeError.

(** [convert], by structural recursion on the type node.  Where the source
    calls [convertArray] and [convertListToProps] on parts of the node, the
    loop is written here as [collect] over those parts (for a shape: over the
    members, passing over all but property signatures), which keeps the
    recursion structural; [convert_equation] below restates the function in
    the source's own shape, over [convertArray] and [convertListToProps]. *)
Fixpoint convert (type : TSType) (reactImportedName : string) {struct type}
  : Result (option PropType) :=
  let type :=
    match type with
    | TSParenthesizedType inner => inner
    | _ => type
    end in
  match type with
  | TSStringKeyword => Return (Some (createMember (Identifier "string")))
  | TSNumberKeyword => Return (Some (createMember (Identifier "number")))
  | TSBooleanKeyword => Return (Some (createMember (Identifier "bool")))
  | TSSymbolKeyword => Return (Some (createMember (Identifier "symbol")))
  | TSFunctionType => Return (Some (createMember (Identifier "func")))
  | TSTypeReference typeName _ =>
      let name := getTypeName typeName in
      if isReactTypeMatch name "ReactText" reactImportedName
         || isReactTypeMatch name "ReactNode" reactImportedName
         || isReactTypeMatch name "ReactType" reactImportedName
         || isReactTypeMatch name "ComponentType" reactImportedName
         || isReactTypeMatch name "ComponentClass" reactImportedName
         || isReactTypeMatch name "StatelessComponent" reactImportedName
      then Return (Some (createMember (Identifier "node")))
      else if isReactTypeMatch name "Element" "JSX"
              || isReactTypeMatch name "ReactElement" reactImportedName
              || isReactTypeMatch name "SFCElement" reactImportedName
      then Return (Some (createMember (Identifier "element")))
      else if isReactTypeMatch name "Ref" reactImportedName
      then Return (Some (createCall (Identifier "oneOfType")
                           [ArrayExpression [createMember (Identifier "string");
                                             createMember (Identifier "func");
                                             createMember (Identifier "object")]]))
      else if endsWith name "Handler"
      then Return (Some (createMember (Identifier "func")))
      else if endsWith name "Event"
      then Return (Some (createMember (Identifier "object")))
      else Return None
  | TSArrayType elementType =>
      let* prop := convert elementType reactImportedName in
      let args := match prop with Some prop => [prop] | None => [] end in
      if (0 <? length args)%nat
      then Return (Some (createCall (Identifier "arrayOf") args))
      else Return (Some (createMember (Identifier "array")))
  | TSTypeLiteral members =>
      match members with
      | [] => Return (Some (createMember (Identifier "object")))
      | [TSIndexSignature indexTypeAnnotation] =>
          match indexTypeAnnotation with
          | Some valueType =>
              let* result := convert valueType reactImportedName in
              match result with
              | Some result => Return (Some (createCall (Identifier "objectOf") [result]))
              | None => Return None
              end
          | None => Return None
          end
      | _ =>
          let* properties :=
            collect
              (fun member : TSTypeElement =>
                 match member with
                 | TSPropertySignatureNode property =>
                     match typeAnnotation property with
                     | None => Return None
                     | Some annotation =>
                         let* propType := convert annotation reactImportedName in
                         match propType with
                         | Some propType =>
                             let* assignment :=
                               objectProperty (key property)
                                 (wrapIsRequired propType (optional property)) in
                             Return (Some assignment)
                         | None => Return None
                         end
                     end
                 | _ => Return None
                 end)
              members in
          Return (Some (createCall (Identifier "shape") [ObjectExpression properties]))
      end
  | TSUnionType types | TSIntersectionType types =>
      let isAllLiterals := forallb isTSLiteralType types in
      if isAllLiterals
      then
        let args := omap literalOf types in
        if (0 <? length args)%nat
        then Return (Some (createCall (Identifier "oneOf") [ArrayExpression args]))
        else Return None
      else
        let* args := collect (fun type => convert type reactImportedName) types in
        if (0 <? length args)%nat
        then Return (Some (createCall (Identifier "oneOfType") [ArrayExpression args]))
        else Return None
  | _ => Return None
  end.

(** [convertArray]: the loop pushes every successful conversion, in order;
    a conversion that throws ends the loop and the call. *)
Definition convertArray (types : list TSType) (reactImportedName : string)
  : Result (list PropType) :=
  fold_left
    (fun propTypes type =>
       let* propTypes := propTypes in
       let* prop := convert type reactImportedName in
       match prop with
       | Some prop => Return (propTypes ++ [prop])
       | None => Return propTypes
       end)
    types (Return []).

(** [convertListToProps]: a property without annotation is passed over, and
    so is one whose annotation does not convert; the builder of the
    assignment may throw. *)
Definition convertListToProps (properties : list TSPropertySignature)
    (reactImportedName : string) : Result (list ObjectProperty) :=
  fold_left
    (fun propTypes property =>
       let* propTypes := propTypes in
       match typeAnnotation property with
       | None => Return propTypes
       | Some annotation =>
           let* propType := convert annotation reactImportedName in
           match propType with
           | Some propType =>
               let* assignment :=
                 objectProperty (key property)
                   (wrapIsRequired propType (optional property)) in
               Return (propTypes ++ [assignment])
           | None => Return propTypes
           end
       end)
    properties (Return []).

(** The names of the properties of [Object.prototype], which every plain
    object inherits. *)
Definition objectPrototypeNames : list string :=
  ["constructor"; "__defineGetter__"; "__defineSetter__"; "hasOwnProperty";
   "__lookupGetter__"; "__lookupSetter__"; "isPrototypeOf";
   "propertyIsEnumerable"; "toString"; "valueOf"; "__proto__";
   "toLocaleString"].

Definition isObjectPrototypeName (name : string) : bool :=
  existsb (String.eqb name) objectPrototypeNames.

(** [convertToPropTypes].  [types] is a plain object, given by the map of
    its own properties.  [types[typeName]] is the array stored under an own
    name, which is truthy even when empty; for a name the object does not hold
    but inherits from [Object.prototype] it is a function (the prototype
    itself for [__proto__]), which is truthy and has no [forEach], so that
    [convertListToProps] throws; for any other name it is [undefined]. *)
Definition convertToPropTypes (types : gmap string (list TSPropertySignature))
    (typeNames : list string) (reactImportedName : string)
  : Result (list ObjectProperty) :=
  fold_left
    (fun properties typeName =>
       let* properties := properties in
       match types !! typeName with
       | Some list =>
           let* assignments := convertListToProps list reactImportedName in
           Return (properties ++ assignments)
       | None =>
           if isObjectPrototypeName typeName
           then Throw TypeError
           else Return properties
       end)
    typeNames (Return []).

(** The first statement of [convert]: one wrapping parenthesis is removed. *)
Definition removeParens (type : TSType) : TSType :=
  match type with
  | TSParenthesizedType inner => inner
  | _ => type
  end.

(** The rest of [convert] (the chain of tests on the node kind that follows
    the parenthesis removal, down to the final [return null]), written as in
    the source over [convert], [convertArray] and [convertListToProps]. *)
Definition classify (type : TSType) (reactImportedName : string)
  : Result (option PropType) :=
  match type with
  | TSStringKeyword => Return (Some (createMember (Identifier "string")))
  | TSNumberKeyword => Return (Some (createMember (Identifier "number")))
  | TSBooleanKeyword => Return (Some (createMember (Identifier "bool")))
  | TSSymbolKeyword => Return (Some (createMember (Identifier "symbol")))
  | TSFunctionType => Return (Some (createMember (Identifier "func")))
  | TSTypeReference typeName _ =>
      let name := getTypeName typeName in
      if isReactTypeMatch name "ReactText" reactImportedName
         || isReactTypeMatch name "ReactNode" reactImportedName
         || isReactTypeMatch name "ReactType" reactImportedName
         || isReactTypeMatch name "ComponentType" reactImportedName
         || isReactTypeMatch name "ComponentClass" reactImportedName
         || isReactTypeMatch name "StatelessComponent" reactImportedName
      then Return (Some (createMember (Identifier "node")))
      else if isReactTypeMatch name "Element" "JSX"
              || isReactTypeMatch name "ReactElement" reactImportedName
              || isReactTypeMatch name "SFCElement" reactImportedName
      then Return (Some (createMember (Identifier "element")))
      else if isReactTypeMatch name "Ref" reactImportedName
      then Return (Some (createCall (Identifier "oneOfType")
                           [ArrayExpression [createMember (Identifier "string");
                                             createMember (Identifier "func");
                                             createMember (Identifier "object")]]))
      else if endsWith name "Handler"
      then Return (Some (createMember (Identifier "func")))
      else if endsWith name "Event"
      then Return (Some (createMember (Identifier "object")))
      else Return None
  | TSArrayType elementType =>
      let* args := convertArray [elementType] reactImportedName in
      if (0 <? length args)%nat
      then Return (Some (createCall (Identifier "arrayOf") args))
      else Return (Some (createMember (Identifier "array")))
  | TSTypeLiteral members =>
      if (length members =? 0)%nat
      then Return (Some (createMember (Identifier "object")))
      else if (length members =? 1)%nat
              && from_option isTSIndexSignature false (head members)
      then
        match head members with
        | Some (TSIndexSignature (Some valueType)) =>
            let* result := convert valueType reactImportedName in
            match result with
            | Some result => Return (Some (createCall (Identifier "objectOf") [result]))
            | None => Return None
            end
        | _ => Return None
        end
      else
        let* properties :=
          convertListToProps (propertySignatures members) reactImportedName in
        Return (Some (createCall (Identifier "shape") [ObjectExpression properties]))
  | TSUnionType types | TSIntersectionType types =>
      let isAllLiterals := forallb isTSLiteralType types in
      if isAllLiterals
      then
        let args := omap literalOf types in
        if (0 <? length args)%nat
        then Return (Some (createCall (Identifier "oneOf") [ArrayExpression args]))
        else Return None
      else
        let* args := convertArray types reactImportedName in
        if (0 <? length args)%nat
        then Return (Some (createCall (Identifier "oneOfType") [ArrayExpression args]))
        else Return None
  | _ => Return None
  end.

(** ** The tests of the type-reference branch, by name *)

(** The first three tests [convert] makes on the name of a type reference. *)
Definition matchesNode (name reactImportedName : string) : bool :=
  isReactTypeMatch name "ReactText" reactImportedName
  || isReactTypeMatch name "ReactNode" reactImportedName
  || isReactTypeMatch name "ReactType" reactImportedName
  || isReactTypeMatch name "ComponentType" reactImportedName
  || isReactTypeMatch name "ComponentClass" reactImportedName
  || isReactTypeMatch name "StatelessComponent" reactImportedName.

Definition matchesElement (name reactImportedName : string) : bool :=
  isReactTypeMatch name "Element" "JSX"
  || isReactTypeMatch name "ReactElement" reactImportedName
  || isReactTypeMatch name "SFCElement" reactImportedName.

Definition matchesRef (name reactImportedName : string) : bool :=
  isReactTypeMatch name "Ref" reactImportedName.

(** The framework types the node, element and Ref tests look for under the
    configured alias. *)
Definition nodeTypes : list string :=
  ["ReactText"; "ReactNode"; "ReactType"; "ComponentType"; "ComponentClass";
   "StatelessComponent"].

Definition elementTypes : list string := ["ReactElement"; "SFCElement"].

Definition frameworkTypes : list string :=
  ["ReactText"; "ReactNode"; "ReactType"; "ComponentType"; "ComponentClass";
   "StatelessComponent"; "ReactElement"; "SFCElement"; "Ref"].

(** The match rule in the words of the specification: the name is the type,
    or [React.] and the type, or the alias, a dot and the type. *)
Definition ruleMatch (name type alias : string) : Prop :=
  name = type \/ name = "React." +:+ type \/ name = alias +:+ "." +:+ type.

(** What one member of a property list contributes: nothing when it has no
    annotation or its annotation is not classified, otherwise the assignment
    that the builder makes under its own key, or the builder's exception. *)
Definition propertyAssignment (reactImportedName : string)
    (property : TSPropertySignature) : Result (option ObjectProperty) :=
  match typeAnnotation property with
  | None => Return None
  | Some annotation =>
      let* propType := convert annotation reactImportedName in
      match propType with
      | None => Return None
      | Some propType =>
          let* assignment :=
            objectProperty (key property)
              (wrapIsRequired propType (optional property)) in
          Return (Some assignment)
      end
  end.

(** What one listed name contributes to [convertToPropTypes]. *)
Definition groupAssignments (types : gmap string (list TSPropertySignature))
    (reactImportedName typeName : string) : Result (list ObjectProperty) :=
  match types !! typeName with
  | Some properties => convertListToProps properties reactImportedName
  | None => if isObjectPrototypeName typeName then Throw TypeError else Return []
  end.

(** The last character of a string. *)
Fixpoint lastChar (s : string) : option ascii :=
  match s with
  | EmptyString => None
  | String c EmptyString => Some c
  | String _ rest => lastChar rest
  end.

(** ** What the converter emits, and the references it reads *)

(** The members of [PropTypes] that [convert] refers to bare, and those it
    calls. *)
Definition memberValidators : list string :=
  ["string"; "number"; "bool"; "symbol"; "func"; "node"; "element"; "object";
   "array"].

Definition callValidators : list string :=
  ["oneOfType"; "arrayOf"; "objectOf"; "shape"; "oneOf"].

(** [PropTypes.<name>] for a bare validator, or a call of [PropTypes.<name>]
    for a validator factory. *)
Definition isValidator (e : Expression) : bool :=
  match e with
  | MemberExpression (Identifier root) (Identifier name) =>
      String.eqb root "PropTypes" && existsb (String.eqb name) memberValidators
  | CallExpression (MemberExpression (Identifier root) (Identifier name)) _ =>
      String.eqb root "PropTypes" && existsb (String.eqb name) callValidators
  | _ => false
  end.

(** A member access [<e>.isRequired]. *)
Definition isRequiredAccess (e : Expression) : bool :=
  match e with
  | MemberExpression _ (Identifier name) => String.eqb name "isRequired"
  | _ => false
  end.

Definition isTSParenthesizedType (type : TSType) : bool :=
  match type with TSParenthesizedType _ => true | _ => false end.

(** No type reference has a dotted name at the following places of the
    type, which are those where a call of [convert] on it may come to test the
    name of a reference: the type itself, under at most one parenthesis; the
    element type of an array; the value type of an index signature that is the
    only member of a type literal; the annotations of the property signatures
    of any other type literal; the members of a union or an intersection; and
    the same places inside the types found there.  The condition leaves free
    the index signatures that stand beside other members, what is under a
    second parenthesis, the type arguments of a reference, and every other
    kind of type.  It is asked of all the places listed, also of those that a
    given call does not come to because an earlier member throws. *)
Fixpoint unqualified (type : TSType) : bool :=
  let type :=
    match type with
    | TSParenthesizedType inner => inner
    | _ => type
    end in
  match type with
  | TSTypeReference typeName _ => dotfree (getTypeName typeName)
  | TSArrayType elementType => unqualified elementType
  | TSTypeLiteral members =>
      match members with
      | [TSIndexSignature indexTypeAnnotation] =>
          match indexTypeAnnotation with
          | Some valueType => unqualified valueType
          | None => true
          end
      | _ =>
          forallb
            (fun member : TSTypeElement =>
               match member with
               | TSPropertySignatureNode property =>
                   match typeAnnotation property with
                   | Some annotation => unqualified annotation
                   | None => true
                   end
               | _ => true
               end)
            members
      end
  | TSUnionType types | TSIntersectionType types => forallb unqualified types
  | _ => true
  end.

(** The last [k] characters of [type] and of [suffix] exist and differ. *)
Definition tailsDiffer (type suffix : string) (k : nat) : bool :=
  (k <=? String.length type)%nat
  && (k <=? String.length suffix)%nat
  && negb (String.eqb (substring (String.length type - k) k type)
             (substring (String.length suffix - k) k suffix)).

(** The five tests of the type-reference branch, in the order of the source. *)
Definition referenceTests (name reactImportedName : string) : list bool :=
  [matchesNode name reactImportedName;
   matchesElement name reactImportedName;
   matchesRef name reactImportedName;
   endsWith name "Handler";
   endsWith name "Event"].

(** The type a member of a type literal carries. *)
Definition memberType (member : TSTypeElement) : option TSType :=
  match member with
  | TSPropertySignatureNode property => typeAnnotation property
  | TSIndexSignature annotation => annotation
  | _ => None
  end.

(** The types directly inside a type. *)
Definition parts (type : TSType) : list TSType :=
  match type with
  | TSArrayType elementType => [elementType]
  | TSTypeLiteral members => omap memberType members
  | TSUnionType types | TSIntersectionType types => types
  | TSParenthesizedType inner => [inner]
  | _ => []
  end.

(** Every property signature of every type literal inside the type has a key
    that the builder of assignments accepts.  The type arguments of a
    reference are not looked at. *)
Fixpoint plainKeys (type : TSType) : bool :=
  match type with
  | TSArrayType elementType => plainKeys elementType
  | TSTypeLiteral members =>
      forallb
        (fun member : TSTypeElement =>
           match member with
           | TSPropertySignatureNode property =>
               isPropertyKey (key property)
               && match typeAnnotation property with
                  | Some annotation => plainKeys annotation
                  | None => true
                  end
           | TSIndexSignature (Some valueType) => plainKeys valueType
           | _ => true
           end)
        members
  | TSUnionType types | TSIntersectionType types => forallb plainKeys types
  | TSParenthesizedType inner => plainKeys inner
  | _ => true
  end.

(** A property whose key the builder accepts, and so for the properties
    inside its annotation. *)
Definition plainProperty (property : TSPropertySignature) : bool :=
  isPropertyKey (key property)
  && match typeAnnotation property with
     | Some annotation => plainKeys annotation
     | None => true
     end.

(** The assignment a property with an accepted key gives: none when it has
    no annotation or its annotation converts to nothing, otherwise its key with
    the validator of its annotation, wrapped by its [optional] flag. *)
Definition assignmentOf (reactImportedName : string)
    (property : TSPropertySignature) : option ObjectProperty :=
  match typeAnnotation property with
  | None => None
  | Some annotation =>
      match convert annotation reactImportedName with
      | Return (Some propType) =>
          Some (key property, wrapIsRequired propType (optional property))
      | _ => None
      end
  end.

(** ** The loops as list functions *)

Section Loops.

Context {A B : Type}.

Lemma bind_Return {C : Type} (m : Result C) : (let* x := m in Return x) = m.
Proof. by destruct m. Qed.

(** A loop that pushes [f x] when it is present, and stops at the first
    exception, is [collect f]. *)
Lemma fold_push_collect (f : A -> Result (option B)) (l : list A)
    (acc : Result (list B)) :
  fold_left
    (fun out x =>
       let* out := out in
       let* y := f x in
       match y with
       | Some y => Return (out ++ [y])
       | None => Return out
       end)
    l acc
  = let* out := acc in let* out' := collect f l in Return (out ++ out').
Proof.
  revert acc; induction l as [|x l IH]; intros acc; simpl.
  - destruct acc; simpl; [by rewrite app_nil_r|done].
  - rewrite IH. destruct acc as [out|e]; simpl; [|done].
    destruct (f x) as [[y|]|e]; simpl; [| |done];
      destruct (collect f l); simpl; [|done|done|done].
    by rewrite <- app_assoc.
Qed.

Lemma collect_app (f : A -> Result (option B)) (l l' : list A) :
  collect f (l ++ l')
  = let* out := collect f l in let* out' := collect f l' in Return (out ++ out').
Proof.
  induction l as [|x l IH]; simpl.
  - by rewrite bind_Return.
  - destruct (f x) as [r|e]; [|done]. rewrite IH.
    destruct (collect f l) as [out|e]; simpl; [|done].
    destruct (collect f l') as [out'|e]; simpl; [|done].
    by destruct r.
Qed.


Lemma collect_inv (f : A -> Result (option B)) (l : list A) (out : list B) :
  collect f l = Return out ->
  exists results,
    Forall2 (fun x r => f x = Return r) l results /\ out = omap id results.
Proof.
  revert out. induction l as [|x l IH]; intros out; simpl.
  - intros [= <-]. exists []. by split; [constructor|].
  - destruct (f x) as [r|e] eqn:Hx; [|done].
    destruct (collect f l) as [out'|e]; [|done].
    intros [= <-]. destruct (IH out' eq_refl) as [results [Hall ->]].
    exists (r :: results). split; [by constructor|]. by destruct r.
Qed.

Lemma collect_length (f : A -> Result (option B)) (l : list A) (out : list B) :
  collect f l = Return out -> length out <= length l.
Proof.
  revert out. induction l as [|x l IH]; intros out; simpl.
  - intros [= <-]. simpl. lia.
  - destruct (f x) as [r|e]; [|done].
    destruct (collect f l) as [out'|e]; [|done].
    intros [= <-]. specialize (IH out' eq_refl). destruct r; simpl; lia.
Qed.

Lemma collect_nil_iff (f : A -> Result (option B)) (l : list A) :
  collect f l = Return [] <-> Forall (fun x => f x = Return None) l.
Proof.
  induction l as [|x l IH]; simpl.
  - split; [constructor|done].
  - rewrite Forall_cons. destruct (f x) as [[y|]|e].
    + split; [|by intros [? _]].
      destruct (collect f l); discriminate.
    + destruct (collect f l) as [out|e].
      * split.
        -- intros [= ->]. split; [done|]. by apply IH.
        -- intros [_ Hl]. apply IH in Hl. by injection Hl as ->.
      * split; [done|]. intros [_ Hl]. by apply IH in Hl.
    + split; [done|]. by intros [? _].
Qed.

Lemma collect_ext (f g : A -> Result (option B)) (l : list A) :
  Forall (fun x => f x = g x) l -> collect f l = collect g l.
Proof.
  induction 1 as [|x l Hx _ IH]; [done|]. simpl. by rewrite Hx, IH.
Qed.

End Loops.

(** ** Facts about strings *)

Section Strings.

#[local] Arguments String.append !s1 s2 : simpl nomatch.

Lemma append_assoc (x y z : string) : (x +:+ y) +:+ z = x +:+ (y +:+ z).
Proof. induction x as [|c x IH]; simpl; [done|by rewrite IH]. Qed.

Lemma dotfree_dotted (x s : string) : dotfree (x +:+ "." +:+ s) = false.
Proof.
  induction x as [|c x IH]; simpl in *; [done|].
  rewrite IH. apply andb_false_r.
Qed.

(** A dotted name splits in one way only at its last dot. *)
Lemma dotted_split (x y s t : string) :
  dotfree s = true -> dotfree t = true ->
  x +:+ "." +:+ s = y +:+ "." +:+ t -> x = y /\ s = t.
Proof.
  intros Hs Ht. revert y.
  induction x as [|c x IH]; intros [|d y] E; simpl in E.
  - by inversion E.
  - inversion E as [[Hd Hrest]].
    pose proof (dotfree_dotted y t) as Hy. simpl in Hy. congruence.
  - inversion E as [[Hc Hrest]].
    pose proof (dotfree_dotted x s) as Hx. simpl in Hx. congruence.
  - inversion E as [[Hc Hrest]]. destruct (IH _ Hrest) as [-> ->]. done.
Qed.

Lemma lastChar_append (x s : string) :
  s <> "" -> lastChar (x +:+ s) = lastChar s.
Proof.
  intros Hs. induction x as [|c x IH]; simpl; [done|].
  rewrite <- IH. destruct (x +:+ s) eqn:E; [|done].
  destruct x; simpl in E; [done|discriminate].
Qed.

Lemma substring_append_r (p s : string) (m : nat) :
  substring (String.length p) m (p +:+ s) = substring 0 m s.
Proof. induction p as [|c p IH]; simpl; done. Qed.

Lemma substring_all (s : string) : substring 0 (String.length s) s = s.
Proof. induction s as [|c s IH]; simpl; [done|by rewrite IH]. Qed.

Lemma length_append (x y : string) :
  String.length (x +:+ y) = String.length x + String.length y.
Proof. induction x as [|c x IH]; simpl; [done|by rewrite IH]. Qed.

Lemma substring_cut (s : string) (k m : nat) :
  k + m = String.length s -> s = substring 0 k s +:+ substring k m s.
Proof.
  revert k; induction s as [|c s IH]; intros k Hk; simpl in *.
  - destruct k, m; simpl; done || discriminate.
  - destruct k as [|k]; simpl.
    + destruct m as [|m]; [discriminate|]. simpl in *.
      injection Hk as ->. by rewrite substring_all.
    + f_equal. apply IH. lia.
Qed.

(** [endsWith] holds exactly of the strings that are something followed
    by the suffix. *)
Lemma endsWith_spec (s suffix : string) :
  endsWith s suffix = true <-> exists p, s = p +:+ suffix.
Proof.
  unfold endsWith. rewrite andb_true_iff, Nat.leb_le, String.eqb_eq. split.
  - intros [Hle Hsub].
    exists (substring 0 (String.length s - String.length suffix) s).
    pose proof (substring_cut s (String.length s - String.length suffix)
                  (String.length suffix)) as Hcut.
    rewrite Hsub in Hcut. apply Hcut. lia.
  - intros [p ->]. rewrite length_append. split; [lia|].
    replace (String.length p + String.length suffix - String.length suffix)
      with (String.length p) by lia.
    rewrite substring_append_r. apply substring_all.
Qed.

Lemma endsWith_append (p suffix : string) : endsWith (p +:+ suffix) suffix = true.
Proof. apply endsWith_spec. by exists p. Qed.

(** A string whose last character is not that of the suffix does not end
    with it. *)
Lemma endsWith_lastChar (s suffix : string) :
  suffix <> "" -> lastChar s <> lastChar suffix -> endsWith s suffix = false.
Proof.
  intros Hne Hlast. destruct (endsWith s suffix) eqn:E; [|done].
  apply endsWith_spec in E as [p ->]. by rewrite lastChar_append in Hlast.
Qed.

End Strings.

(** ** The framework match rule *)

Section MatchRule.

#[local] Arguments String.append !s1 s2 : simpl nomatch.

(** The rule in words: the name is the type, or [React.] and the type, or
    the alias, a dot and the type. *)
Lemma isReactTypeMatch_spec (name type reactImportedName : string) :
  isReactTypeMatch name type reactImportedName = true <->
  name = type \/ name = "React." +:+ type
  \/ name = reactImportedName +:+ "." +:+ type.
Proof.
  unfold isReactTypeMatch. rewrite !orb_true_iff, !String.eqb_eq. tauto.
Qed.

(** A matching name is the type, or a qualifier, a dot and the type. *)
Lemma match_segment (name type reactImportedName : string) :
  isReactTypeMatch name type reactImportedName = true ->
  name = type \/ exists q, name = q +:+ "." +:+ type.
Proof.
  rewrite isReactTypeMatch_spec. intros [H|[H|H]]; [by left| |].
  - right. by exists "React".
  - right. by exists reactImportedName.
Qed.

(** A name matches at most one dot-free type, whatever the aliases. *)
Lemma match_unique (name type type' alias alias' : string) :
  dotfree type = true -> dotfree type' = true ->
  isReactTypeMatch name type alias = true ->
  isReactTypeMatch name type' alias' = true ->
  type = type'.
Proof.
  intros Hd Hd' H H'.
  apply match_segment in H as [->|[q ->]];
    apply match_segment in H' as [H'|[q' H']].
  - done.
  - rewrite H', dotfree_dotted in Hd. done.
  - rewrite <- H', dotfree_dotted in Hd'. done.
  - by destruct (dotted_split _ _ _ _ Hd Hd' H').
Qed.

(** A qualified name matches only its own last segment, and only under the
    qualifier [React] or the alias. *)
Lemma qualified_match (q segment type alias : string) :
  dotfree segment = true -> dotfree type = true ->
  isReactTypeMatch (q +:+ "." +:+ segment) type alias = true ->
  segment = type /\ (q = "React" \/ q = alias).
Proof.
  intros Hs Ht. rewrite isReactTypeMatch_spec. intros [H|[H|H]].
  - rewrite <- H, dotfree_dotted in Ht. done.
  - change ("React." +:+ type) with ("React" +:+ "." +:+ type) in H.
    destruct (dotted_split _ _ _ _ Hs Ht H) as [-> ->]. auto.
  - destruct (dotted_split _ _ _ _ Hs Ht H) as [-> ->]. auto.
Qed.

End MatchRule.


(** ** [convert] in the shape of the source *)

Section Equations.

Variable reactImportedName : string.

Lemma convertArray_collect (types : list TSType) :
  convertArray types reactImportedName
  = collect (fun type => convert type reactImportedName) types.
Proof.
  unfold convertArray.
  etransitivity;
    [apply (fold_push_collect (fun type => convert type reactImportedName))|].
  simpl. apply bind_Return.
Qed.

Lemma convertListToProps_collect (properties : list TSPropertySignature) :
  convertListToProps properties reactImportedName
  = collect (propertyAssignment reactImportedName) properties.
Proof.
  unfold convertListToProps.
  match goal with
  | |- fold_left ?push _ _ = _ =>
      enough (forall acc,
                 fold_left push properties acc
                 = let* out := acc in
                   let* out' := collect (propertyAssignment reactImportedName)
                                  properties in
                   Return (out ++ out'))
        as Hacc by (rewrite Hacc; simpl; apply bind_Return)
  end.
  induction properties as [|property rest IH]; intros acc; simpl.
  - destruct acc; simpl; [by rewrite app_nil_r|done].
  - rewrite IH. destruct acc as [out|e]; simpl; [|done].
    unfold propertyAssignment.
    destruct (typeAnnotation property) as [annotation|]; simpl.
    + destruct (convert annotation reactImportedName) as [[propType|]|e]; simpl;
        [|by destruct (collect _ rest)|done].
      destruct (objectProperty (key property)
                  (wrapIsRequired propType (optional property)));
        simpl; [|done].
      destruct (collect _ rest); simpl; [|done]. by rewrite <- app_assoc.
    + by destruct (collect _ rest).
Qed.

(** Filtering the property signatures first, or passing over the other
    members on the way, is the same loop. *)
Lemma collect_propertySignatures {B : Type}
    (f : TSPropertySignature -> Result (option B))
    (members : list TSTypeElement) :
  collect f (propertySignatures members)
  = collect (fun member : TSTypeElement =>
               match member with
               | TSPropertySignatureNode property => f property
               | _ => Return None
               end) members.
Proof.
  induction members as [|member rest IH]; [done|].
  destruct member; simpl; rewrite <- ?IH; try done;
    by destruct (collect f (propertySignatures rest)).
Qed.

(** The cast in [propertySignatures] keeps exactly what the filter keeps. *)
Lemma propertySignatures_filter (members : list TSTypeElement) :
  map TSPropertySignatureNode (propertySignatures members)
  = List.filter isTSPropertySignature members.
Proof.
  induction members as [|member rest IH]; [done|].
  destruct member; simpl; rewrite <- ?IH; done.
Qed.

Ltac source_shape :=
  unfold classify, removeParens;
  rewrite ?convertArray_collect, ?convertListToProps_collect,
    ?collect_propertySignatures;
  try reflexivity;
  try (simpl; match goal with
              | |- context [convert ?type reactImportedName] =>
                  destruct (convert type reactImportedName) as [[?|]|?]
              end; reflexivity).

(** [convert] removes one parenthesis and then runs the chain of tests of
    the source, with its calls to [convertArray] and [convertListToProps]. *)
Lemma convert_equation (type : TSType) :
  convert type reactImportedName
  = classify (removeParens type) reactImportedName.
Proof.
  destruct type as [| | | | |typeName args|elementType|members|types|types
                   |inner|literal|kind];
    [source_shape ..| |source_shape|source_shape].
  - destruct members as [|[] [|? ?]]; source_shape.
  - destruct inner as [| | | | |typeName args|elementType|members|types|types
                      |inner|literal|kind];
      source_shape.
    destruct members as [|[] [|? ?]]; source_shape.
Qed.

(** The type-literal branch, member list by member list. *)
Lemma convert_literal_cases (members : list TSTypeElement) :
  convert (TSTypeLiteral members) reactImportedName
  = match members with
    | [] => Return (Some (MemberExpression (Identifier "PropTypes")
                            (Identifier "object")))
    | [TSIndexSignature annotation] =>
        match annotation with
        | Some valueType =>
            match convert valueType reactImportedName with
            | Return (Some result) =>
                Return (Some (CallExpression
                                (MemberExpression (Identifier "PropTypes")
                                   (Identifier "objectOf")) [result]))
            | Return None => Return None
            | Throw e => Throw e
            end
        | None => Return None
        end
    | _ =>
        match convertListToProps (propertySignatures members) reactImportedName with
        | Return properties =>
            Return (Some (CallExpression
                            (MemberExpression (Identifier "PropTypes")
                               (Identifier "shape"))
                            [ObjectExpression properties]))
        | Throw e => Throw e
        end
    end.
Proof.
  rewrite convert_equation. unfold removeParens, classify.
  destruct members as [|[property|[valueType|]| | |] [|member rest]];
    reflexivity.
Qed.

(** The type-reference branch, over the named tests. *)
Lemma convert_reference (typeName : TSEntityName)
    (typeParameters : option (list TSType)) :
  convert (TSTypeReference typeName typeParameters) reactImportedName
  = let name := getTypeName typeName in
    Return
      (if matchesNode name reactImportedName
       then Some (MemberExpression (Identifier "PropTypes") (Identifier "node"))
       else if matchesElement name reactImportedName
       then Some (MemberExpression (Identifier "PropTypes") (Identifier "element"))
       else if matchesRef name reactImportedName
       then Some (CallExpression
                    (MemberExpression (Identifier "PropTypes")
                       (Identifier "oneOfType"))
                    [ArrayExpression
                       [MemberExpression (Identifier "PropTypes") (Identifier "string");
                        MemberExpression (Identifier "PropTypes") (Identifier "func");
                        MemberExpression (Identifier "PropTypes")
                          (Identifier "object")]])
       else if endsWith name "Handler"
       then Some (MemberExpression (Identifier "PropTypes") (Identifier "func"))
       else if endsWith name "Event"
       then Some (MemberExpression (Identifier "PropTypes") (Identifier "object"))
       else None).
Proof.
  cbv zeta. unfold matchesNode, matchesElement, matchesRef.
  change (convert (TSTypeReference typeName typeParameters) reactImportedName)
    with (classify (TSTypeReference typeName typeParameters) reactImportedName).
  unfold classify. cbv zeta.
  repeat match goal with
    | |- (if ?b then _ else _) = _ => destruct b
    end; reflexivity.
Qed.

(** The array branch. *)
Lemma convert_array_cases (elementType : TSType) :
  convert (TSArrayType elementType) reactImportedName
  = match convert elementType reactImportedName with
    | Return (Some V) =>
        Return (Some (CallExpression
                        (MemberExpression (Identifier "PropTypes")
                           (Identifier "arrayOf")) [V]))
    | Return None =>
        Return (Some (MemberExpression (Identifier "PropTypes") (Identifier "array")))
    | Throw e => Throw e
    end.
Proof.
  change (convert (TSArrayType elementType) reactImportedName)
    with (let* prop := convert elementType reactImportedName in
          let args := match prop with Some prop => [prop] | None => [] end in
          if (0 <? length args)%nat
          then Return (Some (createCall (Identifier "arrayOf") args))
          else Return (Some (createMember (Identifier "array")))).
  by destruct (convert elementType reactImportedName) as [[V|]|e].
Qed.

(** The union and intersection branch. *)
Lemma convert_union_cases (types : list TSType) :
  convert (TSUnionType types) reactImportedName
  = (if forallb isTSLiteralType types
     then
       match omap literalOf types with
       | [] => Return None
       | literals =>
           Return (Some (CallExpression
                           (MemberExpression (Identifier "PropTypes")
                              (Identifier "oneOf"))
                           [ArrayExpression literals]))
       end
     else
       match convertArray types reactImportedName with
       | Return [] => Return None
       | Return args =>
           Return (Some (CallExpression
                           (MemberExpression (Identifier "PropTypes")
                              (Identifier "oneOfType"))
                           [ArrayExpression args]))
       | Throw e => Throw e
       end)
  /\ convert (TSIntersectionType types) reactImportedName
     = convert (TSUnionType types) reactImportedName.
Proof.
  split; [|reflexivity].
  rewrite (convert_equation (TSUnionType types)). unfold removeParens, classify.
  cbv zeta. destruct (forallb isTSLiteralType types).
  - by destruct (omap literalOf types).
  - by destruct (convertArray types reactImportedName) as [[|? ?]|?].
Qed.

End Equations.

(** ** The tests on the name of a type reference *)

(** A name that matches one dot-free type matches no other. *)
Lemma match_excludes (name type type' alias alias' : string) :
  dotfree type = true -> dotfree type' = true -> type <> type' ->
  isReactTypeMatch name type alias = true ->
  isReactTypeMatch name type' alias' = false.
Proof.
  intros Hd Hd' Hne H.
  destruct (isReactTypeMatch name type' alias') eqn:E; [|done].
  destruct Hne. by eapply match_unique.
Qed.


(** Given [H : isReactTypeMatch name type alias = true], every test of
    [name] against another type is [false]. *)
Ltac no_other_match H :=
  unfold matchesNode, matchesElement, matchesRef;
  match type of H with
  | isReactTypeMatch ?n ?t ?a = true =>
      repeat match goal with
        | |- context [isReactTypeMatch n ?t' ?a'] =>
            rewrite (match_excludes n t t' a a' eq_refl eq_refl
                       ltac:(discriminate) H)
        end
  end;
  try reflexivity.

Section Suffixes.

#[local] Arguments String.append !s1 s2 : simpl nomatch.

Lemma append_inj_tail (x y s t : string) :
  x +:+ s = y +:+ t -> String.length s = String.length t -> s = t.
Proof.
  revert y. induction x as [|c x IH]; intros [|d y] E Hlen; simpl in E.
  - done.
  - rewrite E in Hlen. simpl in Hlen. rewrite length_append in Hlen. lia.
  - rewrite <- E in Hlen. simpl in Hlen. rewrite length_append in Hlen. lia.
  - injection E as _ E. by apply (IH y).
Qed.

Lemma substring_length (s : string) (i k : nat) :
  i + k <= String.length s -> String.length (substring i k s) = k.
Proof.
  revert i k. induction s as [|c s IH]; intros i k Hle; simpl in *.
  - destruct i, k; simpl; lia.
  - destruct i as [|i]; [destruct k as [|k]; [done|]|]; simpl.
    + f_equal. apply IH. lia.
    + apply IH. lia.
Qed.

(** A string that ends in [s] does not end in a suffix whose tail of the
    same length is not [s]. *)
Lemma endsWith_tail (x s u t : string) :
  String.length s = String.length t -> s <> t ->
  endsWith (x +:+ s) (u +:+ t) = false.
Proof.
  intros Hlen Hne. destruct (endsWith (x +:+ s) (u +:+ t)) eqn:E; [|done].
  apply endsWith_spec in E as [p Hp]. rewrite <- append_assoc in Hp.
  destruct Hne. by eapply append_inj_tail.
Qed.

(** A matching name ends in the type. *)
Lemma match_prefix (name type alias : string) :
  isReactTypeMatch name type alias = true -> exists x, name = x +:+ type.
Proof.
  rewrite isReactTypeMatch_spec. intros [-> | [-> | ->]].
  - by exists "".
  - by exists "React.".
  - exists (alias +:+ "."). by rewrite append_assoc.
Qed.

(** A name that matches a type does not end in a suffix whose tail differs
    from the tail of the type. *)
Lemma match_not_suffix (name type alias suffix : string) (k : nat) :
  isReactTypeMatch name type alias = true ->
  tailsDiffer type suffix k = true ->
  endsWith name suffix = false.
Proof.
  intros [x ->]%match_prefix.
  unfold tailsDiffer. rewrite !andb_true_iff, !Nat.leb_le, negb_true_iff.
  intros [[Htype Hsuffix] Hdiffer].
  rewrite (substring_cut type (String.length type - k) k) by lia.
  rewrite (substring_cut suffix (String.length suffix - k) k) by lia.
  rewrite <- append_assoc. apply endsWith_tail.
  - rewrite !substring_length; lia.
  - intros Heq. rewrite Heq, String.eqb_refl in Hdiffer. done.
Qed.

End Suffixes.

(** Given [H : isReactTypeMatch name type alias = true], the name has neither
    of the two suffixes. *)
Ltac no_suffix H :=
  first [ rewrite (match_not_suffix _ _ _ "Handler" 1 H eq_refl)
        | idtac ];
  first [ rewrite (match_not_suffix _ _ _ "Event" 1 H eq_refl)
        | rewrite (match_not_suffix _ _ _ "Event" 3 H eq_refl)
        | rewrite (match_not_suffix _ _ _ "Event" 4 H eq_refl)
        | idtac ].

Lemma node_excludes (name alias : string) :
  matchesNode name alias = true ->
  matchesElement name alias = false /\ matchesRef name alias = false
  /\ endsWith name "Handler" = false /\ endsWith name "Event" = false.
Proof.
  unfold matchesNode. rewrite !orb_true_iff.
  intros [[[[[H|H]|H]|H]|H]|H]; no_other_match H; no_suffix H; done.
Qed.

Lemma element_excludes (name alias : string) :
  matchesElement name alias = true ->
  matchesRef name alias = false
  /\ endsWith name "Handler" = false /\ endsWith name "Event" = false.
Proof.
  unfold matchesElement. rewrite !orb_true_iff.
  intros [[H|H]|H]; no_other_match H; no_suffix H; done.
Qed.

Lemma ref_excludes (name alias : string) :
  matchesRef name alias = true ->
  endsWith name "Handler" = false /\ endsWith name "Event" = false.
Proof. unfold matchesRef. intros H. no_suffix H. done. Qed.

Lemma handler_excludes (name : string) :
  endsWith name "Handler" = true -> endsWith name "Event" = false.
Proof.
  intros [p ->]%endsWith_spec. apply endsWith_lastChar; [done|].
  by rewrite lastChar_append.
Qed.

(** The three match tests, in the words of the rule. *)
Lemma matchesNode_rule (name alias : string) :
  matchesNode name alias = true <->
  exists type, In type nodeTypes /\ ruleMatch name type alias.
Proof.
  unfold matchesNode, ruleMatch. rewrite !orb_true_iff, !isReactTypeMatch_spec.
  split.
  - intros [[[[[H|H]|H]|H]|H]|H]; eexists; (split; [|exact H]); simpl; tauto.
  - intros [type [Hin H]]. simpl in Hin.
    repeat (destruct Hin as [<-|Hin]; [tauto|]). done.
Qed.

Lemma matchesElement_rule (name alias : string) :
  matchesElement name alias = true <->
  ruleMatch name "Element" "JSX"
  \/ exists type, In type elementTypes /\ ruleMatch name type alias.
Proof.
  unfold matchesElement, ruleMatch. rewrite !orb_true_iff, !isReactTypeMatch_spec.
  split.
  - intros [[H|H]|H]; [by left| |]; right; eexists; (split; [|exact H]);
      simpl; tauto.
  - intros [H|[type [Hin H]]]; [tauto|]. simpl in Hin.
    repeat (destruct Hin as [<-|Hin]; [tauto|]). done.
Qed.

Lemma matchesRef_rule (name alias : string) :
  matchesRef name alias = true <-> ruleMatch name "Ref" alias.
Proof. apply isReactTypeMatch_spec. Qed.

(** ** Type references *)

(** C10.  Whatever the configured alias, a type reference named [Element] or
    [React.Element] converts to the [element] validator, the member access
    [PropTypes.element]: the element test applies the match rule to [Element]
    with the fixed alias [JSX], so the bare and the [React.]-qualified names
    match as well as [JSX.Element]. *)
Theorem element_matches_unqualified (reactImportedName : string)
    (typeName : TSEntityName) (typeParameters : option (list TSType)) :
  getTypeName typeName = "Element" \/ getTypeName typeName = "React.Element" ->
  isReactTypeMatch (getTypeName typeName) "Element" "JSX" = true
  /\ convert (TSTypeReference typeName typeParameters) reactImportedName
     = Return (Some (MemberExpression (Identifier "PropTypes")
                       (Identifier "element"))).
Proof.
  intros Hname.
  assert (isReactTypeMatch (getTypeName typeName) "Element" "JSX" = true) as H
    by (destruct Hname as [-> | ->]; reflexivity).
  split; [done|].
  rewrite convert_reference. cbv zeta.
  replace (matchesNode (getTypeName typeName) reactImportedName) with false
    by (symmetry; no_other_match H).
  unfold matchesElement. by rewrite H.
Qed.

Lemma element_matches_unqualified_witness :
  convert (TSTypeReference (TSQualifiedName (EntityIdentifier "React") "Element") None)
    "Preact"
  = Return (Some (MemberExpression (Identifier "PropTypes") (Identifier "element"))).
Proof.
  apply (element_matches_unqualified "Preact"
           (TSQualifiedName (EntityIdentifier "React") "Element") None).
  right. reflexivity.
Defined.

(** C6.  A type reference whose name matches [Ref] under the match rule
    converts to the call [PropTypes.oneOfType([PropTypes.string,
    PropTypes.func, PropTypes.object])], with the same three-element array
    whatever type arguments the reference carries. *)
Theorem ref_fixed_union (reactImportedName : string) (typeName : TSEntityName)
    (typeParameters : option (list TSType)) :
  isReactTypeMatch (getTypeName typeName) "Ref" reactImportedName = true ->
  convert (TSTypeReference typeName typeParameters) reactImportedName
  = Return
      (Some (CallExpression
               (MemberExpression (Identifier "PropTypes") (Identifier "oneOfType"))
               [ArrayExpression
                  [MemberExpression (Identifier "PropTypes") (Identifier "string");
                   MemberExpression (Identifier "PropTypes") (Identifier "func");
                   MemberExpression (Identifier "PropTypes") (Identifier "object")]])).
Proof.
  intros H. rewrite convert_reference. cbv zeta.
  replace (matchesNode (getTypeName typeName) reactImportedName) with false
    by (symmetry; no_other_match H).
  replace (matchesElement (getTypeName typeName) reactImportedName) with false
    by (symmetry; no_other_match H).
  unfold matchesRef. by rewrite H.
Qed.

Lemma ref_fixed_union_witness :
  convert
    (TSTypeReference (TSQualifiedName (EntityIdentifier "R") "Ref")
       (Some [TSTypeReference (EntityIdentifier "HTMLDivElement") None]))
    "R"
  = Return
      (Some (CallExpression
               (MemberExpression (Identifier "PropTypes") (Identifier "oneOfType"))
               [ArrayExpression
                  [MemberExpression (Identifier "PropTypes") (Identifier "string");
                   MemberExpression (Identifier "PropTypes") (Identifier "func");
                   MemberExpression (Identifier "PropTypes") (Identifier "object")]])).
Proof.
  apply (ref_fixed_union "R" (TSQualifiedName (EntityIdentifier "R") "Ref")
           (Some [TSTypeReference (EntityIdentifier "HTMLDivElement") None])).
  reflexivity.
Defined.

(** C7.  For a type reference whose name fails the node, element and Ref
    tests: a name ending in [Handler] gives [PropTypes.func] (so does a name
    ending in [EventHandler], the test for [Handler] coming first); otherwise
    a name ending in [Event] gives [PropTypes.object]; otherwise the result is
    [null]. *)
Theorem handler_event_suffixes (reactImportedName : string)
    (typeName : TSEntityName) (typeParameters : option (list TSType)) :
  matchesNode (getTypeName typeName) reactImportedName = false ->
  matchesElement (getTypeName typeName) reactImportedName = false ->
  matchesRef (getTypeName typeName) reactImportedName = false ->
  convert (TSTypeReference typeName typeParameters) reactImportedName
  = Return
      (if endsWith (getTypeName typeName) "Handler"
       then Some (MemberExpression (Identifier "PropTypes") (Identifier "func"))
       else if endsWith (getTypeName typeName) "Event"
       then Some (MemberExpression (Identifier "PropTypes") (Identifier "object"))
       else None)
  /\ (endsWith (getTypeName typeName) "EventHandler" = true ->
      convert (TSTypeReference typeName typeParameters) reactImportedName
      = Return (Some (MemberExpression (Identifier "PropTypes")
                        (Identifier "func")))).
Proof.
  intros Hnode Helement Href.
  rewrite convert_reference. cbv zeta. rewrite Hnode, Helement, Href.
  split; [done|].
  intros [p Hp]%endsWith_spec.
  replace (endsWith (getTypeName typeName) "Handler") with true; [done|].
  symmetry. apply endsWith_spec. exists (p +:+ "Event").
  by rewrite Hp, append_assoc.
Qed.

Lemma handler_event_suffixes_witness :
  convert
    (TSTypeReference (TSQualifiedName (EntityIdentifier "React") "MouseEventHandler")
       None)
    "React"
  = Return (Some (MemberExpression (Identifier "PropTypes") (Identifier "func")))
  /\ convert
       (TSTypeReference (TSQualifiedName (EntityIdentifier "React") "MouseEvent") None)
       "React"
     = Return (Some (MemberExpression (Identifier "PropTypes") (Identifier "object")))
  /\ convert (TSTypeReference (EntityIdentifier "CustomType") None) "React"
     = Return None.
Proof.
  split; [|split].
  - apply (handler_event_suffixes "React"
             (TSQualifiedName (EntityIdentifier "React") "MouseEventHandler") None);
      reflexivity.
  - apply (handler_event_suffixes "React"
             (TSQualifiedName (EntityIdentifier "React") "MouseEvent") None);
      reflexivity.
  - apply (handler_event_suffixes "React" (EntityIdentifier "CustomType") None);
      reflexivity.
Defined.

(** The three framework results of [convert] come from the three tests. *)
Lemma convert_reference_node (reactImportedName : string)
    (typeName : TSEntityName) (typeParameters : option (list TSType)) :
  convert (TSTypeReference typeName typeParameters) reactImportedName
  = Return (Some (MemberExpression (Identifier "PropTypes") (Identifier "node")))
  <-> matchesNode (getTypeName typeName) reactImportedName = true.
Proof.
  rewrite convert_reference. cbv zeta.
  destruct (matchesNode (getTypeName typeName) reactImportedName); [done|].
  repeat match goal with
    | |- context [if ?b then _ else _] => destruct b
    end; split; discriminate.
Qed.

Lemma convert_reference_element (reactImportedName : string)
    (typeName : TSEntityName) (typeParameters : option (list TSType)) :
  convert (TSTypeReference typeName typeParameters) reactImportedName
  = Return (Some (MemberExpression (Identifier "PropTypes") (Identifier "element")))
  <-> matchesElement (getTypeName typeName) reactImportedName = true.
Proof.
  rewrite convert_reference. cbv zeta.
  destruct (matchesNode (getTypeName typeName) reactImportedName) eqn:Hnode.
  { destruct (node_excludes _ _ Hnode) as (-> & _). split; discriminate. }
  destruct (matchesElement (getTypeName typeName) reactImportedName); [done|].
  repeat match goal with
    | |- context [if ?b then _ else _] => destruct b
    end; split; discriminate.
Qed.

Lemma convert_reference_ref (reactImportedName : string)
    (typeName : TSEntityName) (typeParameters : option (list TSType)) :
  convert (TSTypeReference typeName typeParameters) reactImportedName
  = Return
      (Some (CallExpression
               (MemberExpression (Identifier "PropTypes") (Identifier "oneOfType"))
               [ArrayExpression
                  [MemberExpression (Identifier "PropTypes") (Identifier "string");
                   MemberExpression (Identifier "PropTypes") (Identifier "func");
                   MemberExpression (Identifier "PropTypes") (Identifier "object")]]))
  <-> matchesRef (getTypeName typeName) reactImportedName = true.
Proof.
  rewrite convert_reference. cbv zeta.
  destruct (matchesNode (getTypeName typeName) reactImportedName) eqn:Hnode.
  { destruct (node_excludes _ _ Hnode) as (_ & -> & _). split; discriminate. }
  destruct (matchesElement (getTypeName typeName) reactImportedName) eqn:Helement.
  { destruct (element_excludes _ _ Helement) as (-> & _). split; discriminate. }
  destruct (matchesRef (getTypeName typeName) reactImportedName); [done|].
  repeat match goal with
    | |- context [if ?b then _ else _] => destruct b
    end; split; discriminate.
Qed.

(** C5.  The match rule governs every framework result of [convert]: a type
    reference converts to [PropTypes.node] exactly when its name is one of
    the six node types, or [React.] and one of them, or the alias, a dot and
    one of them; to [PropTypes.element] exactly when its name is so related to
    [ReactElement] or [SFCElement], or to [Element] under the alias [JSX]; to
    the [oneOfType] call of [Ref] exactly when it is so related to [Ref].  In
    particular a type reference named [A.ReactNode] converts to
    [PropTypes.node] when the configured alias is [A]; when the configured
    alias is another one and the name is not [React.ReactNode] (it is never
    the bare [ReactNode]), the name is related to no framework type, and the
    reference converts to nothing. *)
Theorem alias_sensitivity (A : string) (typeName : TSEntityName)
    (typeParameters : option (list TSType)) :
  (forall reference arguments alias,
      (convert (TSTypeReference reference arguments) alias
       = Return (Some (MemberExpression (Identifier "PropTypes")
                         (Identifier "node")))
       <-> exists type,
             In type nodeTypes /\ ruleMatch (getTypeName reference) type alias)
      /\ (convert (TSTypeReference reference arguments) alias
          = Return (Some (MemberExpression (Identifier "PropTypes")
                            (Identifier "element")))
          <-> ruleMatch (getTypeName reference) "Element" "JSX"
              \/ exists type,
                   In type elementTypes
                   /\ ruleMatch (getTypeName reference) type alias)
      /\ (convert (TSTypeReference reference arguments) alias
          = Return
              (Some (CallExpression
                       (MemberExpression (Identifier "PropTypes")
                          (Identifier "oneOfType"))
                       [ArrayExpression
                          [MemberExpression (Identifier "PropTypes")
                             (Identifier "string");
                           MemberExpression (Identifier "PropTypes")
                             (Identifier "func");
                           MemberExpression (Identifier "PropTypes")
                             (Identifier "object")]]))
          <-> ruleMatch (getTypeName reference) "Ref" alias))
  /\ (getTypeName typeName = A +:+ ".ReactNode" ->
      convert (TSTypeReference typeName typeParameters) A
      = Return (Some (MemberExpression (Identifier "PropTypes")
                        (Identifier "node")))
      /\ forall B,
           B <> A -> getTypeName typeName <> "React.ReactNode" ->
           (forall type, In type frameworkTypes ->
                         ~ ruleMatch (getTypeName typeName) type B)
           /\ ~ ruleMatch (getTypeName typeName) "Element" "JSX"
           /\ convert (TSTypeReference typeName typeParameters) B = Return None).
Proof.
  split.
  { intros reference arguments alias. split; [|split].
    - rewrite convert_reference_node. apply matchesNode_rule.
    - rewrite convert_reference_element. apply matchesElement_rule.
    - rewrite convert_reference_ref. apply matchesRef_rule. }
  intros Hname. split.
  - apply convert_reference_node, matchesNode_rule.
    exists "ReactNode". split; [simpl; tauto|]. right; right. by rewrite Hname.
  - intros B HB HReact.
    assert (forall type alias,
               dotfree type = true -> alias = B \/ type <> "ReactNode" ->
               isReactTypeMatch (getTypeName typeName) type alias = false)
      as Hnone.
    { intros type alias Hd Hcase.
      destruct (isReactTypeMatch (getTypeName typeName) type alias) eqn:E; [|done].
      rewrite Hname in E.
      change (A +:+ ".ReactNode") with (A +:+ "." +:+ "ReactNode") in E.
      apply qualified_match in E as [<- HA]; [|done..].
      destruct Hcase as [->|Hne]; [|done].
      destruct HA as [-> | ->]; [|done].
      by rewrite Hname in HReact. }
    assert (forall type, In type frameworkTypes ->
                         isReactTypeMatch (getTypeName typeName) type B = false)
      as Hall.
    { intros type Hin. apply Hnone; [|by left].
      simpl in Hin.
      repeat (destruct Hin as [<-|Hin]; [reflexivity|]). done. }
    assert (isReactTypeMatch (getTypeName typeName) "Element" "JSX" = false)
      as HJSX by (apply Hnone; [done|right; discriminate]).
    split; [|split].
    + intros type Hin Hrule%isReactTypeMatch_spec. by rewrite Hall in Hrule.
    + intros Hrule%isReactTypeMatch_spec. by rewrite HJSX in Hrule.
    + assert (matchesNode (getTypeName typeName) B = false) as Hnode
        by (unfold matchesNode; rewrite !Hall; simpl; auto 10).
      assert (matchesElement (getTypeName typeName) B = false) as Helement
        by (unfold matchesElement; rewrite HJSX, !Hall; simpl; auto 10).
      assert (matchesRef (getTypeName typeName) B = false) as Href
        by (unfold matchesRef; rewrite Hall; simpl; auto 10).
      rewrite convert_reference. cbv zeta. rewrite Hnode, Helement, Href, Hname.
      rewrite !endsWith_lastChar; try done;
        by rewrite lastChar_append.
Qed.

Lemma alias_sensitivity_witness :
  convert (TSTypeReference (TSQualifiedName (EntityIdentifier "MyAlias") "ReactNode") None)
    "MyAlias"
  = Return (Some (MemberExpression (Identifier "PropTypes") (Identifier "node")))
  /\ convert (TSTypeReference (TSQualifiedName (EntityIdentifier "MyAlias") "ReactNode") None)
       "Other"
     = Return None.
Proof.
  pose proof (alias_sensitivity "MyAlias"
                (TSQualifiedName (EntityIdentifier "MyAlias") "ReactNode") None)
    as [_ Hname].
  destruct (Hname eq_refl) as [Hsame Hother].
  split; [exact Hsame|].
  apply (Hother "Other"); discriminate.
Defined.

(** ** Parentheses, arrays, type literals, unions *)

(** C9.  One call of [convert] removes one parenthesis and no more: on a
    parenthesized [T] it runs the chain of tests on [T]; none of those tests
    holds of a parenthesized node, so on a doubly parenthesized [T] the call
    returns [null]. *)
Theorem one_level_of_parens (T : TSType) (reactImportedName : string) :
  convert (TSParenthesizedType T) reactImportedName = classify T reactImportedName
  /\ classify (TSParenthesizedType T) reactImportedName = Return None
  /\ convert (TSParenthesizedType (TSParenthesizedType T)) reactImportedName
     = Return None
  /\ convert T reactImportedName = classify (removeParens T) reactImportedName.
Proof.
  split; [apply (convert_equation _ (TSParenthesizedType T))|].
  split; [reflexivity|]. split; [reflexivity|]. apply convert_equation.
Qed.

(** C2.  If the element type converts to [V], the array type converts to the
    call [PropTypes.arrayOf(V)]; if the element type converts to nothing, the
    array type converts to the bare [PropTypes.array]; the array type never
    converts to nothing.  (It throws when its element type does.) *)
Theorem array_of_element (E : TSType) (reactImportedName : string) :
  (forall V, convert E reactImportedName = Return (Some V) ->
             convert (TSArrayType E) reactImportedName
             = Return (Some (CallExpression
                               (MemberExpression (Identifier "PropTypes")
                                  (Identifier "arrayOf"))
                               [V])))
  /\ (convert E reactImportedName = Return None ->
      convert (TSArrayType E) reactImportedName
      = Return (Some (MemberExpression (Identifier "PropTypes")
                        (Identifier "array"))))
  /\ convert (TSArrayType E) reactImportedName <> Return None
  /\ (forall e, convert E reactImportedName = Throw e ->
                convert (TSArrayType E) reactImportedName = Throw e).
Proof.
  rewrite convert_array_cases.
  destruct (convert E reactImportedName) as [[V|]|e].
  - split; [by intros ? [= <-]|]. split; [done|]. split; done.
  - split; [done|]. split; [done|]. split; done.
  - split; [done|]. split; [done|]. split; [done|]. by intros ? [= <-].
Qed.

Lemma array_of_element_witness :
  convert (TSArrayType TSStringKeyword) "React"
  = Return (Some (CallExpression
                    (MemberExpression (Identifier "PropTypes") (Identifier "arrayOf"))
                    [MemberExpression (Identifier "PropTypes") (Identifier "string")]))
  /\ convert (TSArrayType (TSOtherType "TSAnyKeyword")) "React"
     = Return (Some (MemberExpression (Identifier "PropTypes") (Identifier "array"))).
Proof.
  split.
  - apply (array_of_element TSStringKeyword "React"). reflexivity.
  - apply (array_of_element (TSOtherType "TSAnyKeyword") "React"). reflexivity.
Defined.

(** C1, as the code has it.  A type literal whose single member is an index
    signature without a typed value converts to nothing: the single index
    signature selects the [objectOf] branch whether or not it has a typed
    value, and that branch never goes on to the shape rule. *)
Theorem lone_index_signature_without_value (reactImportedName : string) :
  convert (TSTypeLiteral [TSIndexSignature None]) reactImportedName = Return None
  /\ classify (TSTypeLiteral [TSIndexSignature None]) reactImportedName
     = Return None
  /\ (forall annotation,
         convert (TSTypeLiteral [TSIndexSignature annotation]) reactImportedName
         = match annotation with
           | Some valueType =>
               match convert valueType reactImportedName with
               | Return (Some result) =>
                   Return (Some (CallExpression
                                   (MemberExpression (Identifier "PropTypes")
                                      (Identifier "objectOf"))
                                   [result]))
               | Return None => Return None
               | Throw e => Throw e
               end
           | None => Return None
           end).
Proof.
  split; [reflexivity|]. split; [reflexivity|].
  intros annotation. by rewrite convert_literal_cases.
Qed.

(** C1, as the claim has it, fails: the literal [{ [key: string] }] has no
    property signature, and does not convert to the [shape] call over the
    empty list of assignments. *)
Lemma lone_index_signature_not_shape :
  propertySignatures [TSIndexSignature None] = []
  /\ convertListToProps (propertySignatures [TSIndexSignature None]) "React"
     = Return []
  /\ convert (TSTypeLiteral [TSIndexSignature None]) "React"
     <> Return (Some (CallExpression
                        (MemberExpression (Identifier "PropTypes")
                           (Identifier "shape"))
                        [ObjectExpression []])).
Proof. split; [reflexivity|]. split; [reflexivity|discriminate]. Qed.

(** Under the all-literals test, the literal values are those of the
    members, one each and in order. *)
Lemma all_literals (types : list TSType) :
  forallb isTSLiteralType types = true ->
  types = map TSLiteralType (omap literalOf types).
Proof.
  induction types as [|type rest IH]; [done|].
  simpl. intros [Htype Hrest]%andb_true_iff.
  destruct type; try discriminate. csimpl. by rewrite <- IH.
Qed.



(** ** Required properties and property lists *)

(** C4.  With the flag [true] the validator comes back unchanged; with the
    flag [false], [null] or absent it comes back as the member access
    [v.isRequired]; either way the result is [v] or a member access on [v]
    itself, and there is a result for every validator and flag.  In a
    property list the flag is the member's [optional]. *)
Theorem wrapIsRequired_spec (v : PropType) :
  wrapIsRequired v (Defined true) = v
  /\ wrapIsRequired v (Defined false) = MemberExpression v (Identifier "isRequired")
  /\ wrapIsRequired v Undefined = MemberExpression v (Identifier "isRequired")
  /\ wrapIsRequired v Null = MemberExpression v (Identifier "isRequired")
  /\ (forall optional,
         wrapIsRequired v optional = v
         \/ wrapIsRequired v optional = MemberExpression v (Identifier "isRequired"))
  /\ (forall key annotation optional reactImportedName,
         convertListToProps [mkPropertySignature key (Some annotation) optional]
           reactImportedName
         = match convert annotation reactImportedName with
           | Return (Some propType) =>
               if isPropertyKey key
               then Return [(key, wrapIsRequired propType optional)]
               else Throw TypeError
           | Return None => Return []
           | Throw e => Throw e
           end).
Proof.
  do 4 (split; [reflexivity|]). split.
  - intros [| |[|]]; auto.
  - intros key annotation optional reactImportedName.
    rewrite convertListToProps_collect. unfold propertyAssignment, objectProperty.
    simpl.
    destruct (convert annotation reactImportedName) as [[propType|]|e]; simpl;
      try done.
    by destruct (isPropertyKey key).
Qed.

(** C8, where the code departs from it.  A listed name that the mapping does
    not hold but that every object inherits, [constructor] say, is not passed
    over: the call throws.  And a member whose key the builder of the
    assignment refuses, the member access of [[Symbol.iterator]: string] say,
    contributes no assignment under its key: the call throws. *)
Theorem convertToPropTypes_throws :
  convertToPropTypes ∅ ["constructor"] "React" = Throw TypeError
  /\ convertToPropTypes
       {["Props" :=
           [mkPropertySignature
              (MemberExpression (Identifier "Symbol") (Identifier "iterator"))
              (Some TSStringKeyword) Undefined]]}
       ["Props"] "React"
     = Throw TypeError.
Proof. split; vm_compute; reflexivity. Qed.

(** ** Further properties of the converter *)

(** On a type that is not parenthesized, the chain of tests is [convert]. *)
Lemma classify_convert (type : TSType) (reactImportedName : string) :
  isTSParenthesizedType type = false ->
  classify type reactImportedName = convert type reactImportedName.
Proof. intros Hbare. rewrite convert_equation. by destruct type. Qed.

(** X1.  A type literal with at least one member, other than a lone index
    signature, converts to the call [PropTypes.shape({...})] over the
    assignments [convertListToProps] returns for its property signatures, and
    throws when [convertListToProps] throws; it never converts to nothing.
    Index signatures and other members beside the property signatures are
    left out, and members that do not convert shorten the shape. *)
Theorem type_literal_shape (members : list TSTypeElement)
    (reactImportedName : string) :
  members <> [] ->
  (forall annotation, members <> [TSIndexSignature annotation]) ->
  convert (TSTypeLiteral members) reactImportedName
  = match convertListToProps (propertySignatures members) reactImportedName with
    | Return properties =>
        Return (Some (CallExpression
                        (MemberExpression (Identifier "PropTypes")
                           (Identifier "shape"))
                        [ObjectExpression properties]))
    | Throw e => Throw e
    end
  /\ convert (TSTypeLiteral members) reactImportedName <> Return None.
Proof.
  intros Hne Hlone. rewrite convert_literal_cases.
  destruct members as [|[property|annotation| | |] [|member rest]];
    try by destruct (convertListToProps _ reactImportedName).
  by destruct (Hlone annotation).
Qed.

Lemma type_literal_shape_witness :
  convert
    (TSTypeLiteral
       [TSIndexSignature (Some TSStringKeyword);
        TSPropertySignatureNode
          (mkPropertySignature (Identifier "a") (Some (TSOtherType "TSAnyKeyword"))
             Undefined);
        TSPropertySignatureNode
          (mkPropertySignature (StringLiteral "b") (Some TSNumberKeyword)
             (Defined true));
        TSMethodSignature (Identifier "m")])
    "React"
  = Return (Some (CallExpression
                    (MemberExpression (Identifier "PropTypes") (Identifier "shape"))
                    [ObjectExpression
                       [(StringLiteral "b",
                         MemberExpression (Identifier "PropTypes")
                           (Identifier "number"))]])).
Proof.
  apply (type_literal_shape
           [TSIndexSignature (Some TSStringKeyword);
            TSPropertySignatureNode
              (mkPropertySignature (Identifier "a")
                 (Some (TSOtherType "TSAnyKeyword")) Undefined);
            TSPropertySignatureNode
              (mkPropertySignature (StringLiteral "b") (Some TSNumberKeyword)
                 (Defined true));
            TSMethodSignature (Identifier "m")]
           "React"); discriminate.
Defined.

(** X2.  A type literal converts to nothing in one situation only: its
    single member is an index signature, and that signature has no typed value
    or a typed value that converts to nothing. *)
Theorem type_literal_null_iff (members : list TSTypeElement)
    (reactImportedName : string) :
  convert (TSTypeLiteral members) reactImportedName = Return None <->
  exists annotation,
    members = [TSIndexSignature annotation]
    /\ (annotation = None
        \/ exists valueType,
             annotation = Some valueType
             /\ convert valueType reactImportedName = Return None).
Proof.
  rewrite convert_literal_cases. split.
  - destruct members as [|[property|annotation| | |] [|member rest]];
      try discriminate;
      try by destruct (convertListToProps _ reactImportedName).
    intros H. exists annotation. split; [done|].
    destruct annotation as [valueType|]; [|by left].
    right. exists valueType. split; [done|].
    by destruct (convert valueType reactImportedName) as [[?|]|?].
  - intros [annotation [-> [->|[valueType [-> ->]]]]]; reflexivity.
Qed.

Lemma type_literal_null_iff_witness :
  convert (TSTypeLiteral [TSIndexSignature (Some (TSOtherType "TSAnyKeyword"))])
    "React"
  = Return None.
Proof.
  apply (type_literal_null_iff
           [TSIndexSignature (Some (TSOtherType "TSAnyKeyword"))] "React").
  exists (Some (TSOtherType "TSAnyKeyword")). split; [reflexivity|].
  right. exists (TSOtherType "TSAnyKeyword"). split; reflexivity.
Defined.

(** Whatever [convert] returns is a bare validator or a validator call. *)
Lemma convert_isValidator (type : TSType) (reactImportedName : string)
    (result : PropType) :
  convert type reactImportedName = Return (Some result) ->
  isValidator result = true.
Proof.
  rewrite convert_equation. generalize (removeParens type). clear type.
  intros type. destruct (isTSParenthesizedType type) eqn:Hparen.
  { by destruct type. }
  rewrite (classify_convert _ _ Hparen).
  destruct type
    as [| | | | |typeName args|elementType|members|types|types
       |inner|literal|kind]; try discriminate;
    try (intros [= <-]; reflexivity).
  - rewrite convert_reference. cbv zeta.
    repeat match goal with
      | |- context [if ?b then _ else _] => destruct b
      end;
      try discriminate; intros [= <-]; reflexivity.
  - rewrite convert_array_cases.
    destruct (convert elementType reactImportedName) as [[V|]|e];
      try discriminate; intros [= <-]; reflexivity.
  - rewrite convert_literal_cases.
    repeat match goal with
      | |- match ?x with _ => _ end = _ -> _ => destruct x
      end;
      try discriminate; intros [= <-]; reflexivity.
  - destruct (convert_union_cases reactImportedName types) as [-> _].
    repeat match goal with
      | |- (if ?b then _ else _) = _ -> _ => destruct b
      | |- match ?x with _ => _ end = _ -> _ => destruct x
      end;
      try discriminate; intros [= <-]; reflexivity.
  - destruct (convert_union_cases reactImportedName types) as [Hunion ->].
    rewrite Hunion.
    repeat match goal with
      | |- (if ?b then _ else _) = _ -> _ => destruct b
      | |- match ?x with _ => _ end = _ -> _ => destruct x
      end;
      try discriminate; intros [= <-]; reflexivity.
Qed.

(** A validator is not an [.isRequired] access. *)
Lemma isValidator_not_required (e : Expression) :
  isValidator e = true -> isRequiredAccess e = false.
Proof.
  destruct e as [| | | |[] [property| | | | | | |]| | |]; try done.
  simpl. intros [_ Hname]%andb_true_iff.
  destruct (String.eqb property "isRequired") eqn:E; [|done].
  apply String.eqb_eq in E as ->. discriminate.
Qed.

(** X3.  Every result of [convert] is a reference to one of nine members of
    [PropTypes] ([string], [number], [bool], [symbol], [func], [node],
    [element], [object], [array]) or a call of one of five ([oneOfType],
    [arrayOf], [objectOf], [shape], [oneOf]); in particular it is never
    itself an [.isRequired] access. *)
Theorem convert_emits_validators (type : TSType) (reactImportedName : string)
    (result : PropType) :
  convert type reactImportedName = Return (Some result) ->
  isValidator result = true /\ isRequiredAccess result = false.
Proof.
  intros Hresult%convert_isValidator. split; [done|].
  by apply isValidator_not_required.
Qed.

Lemma convert_emits_validators_witness :
  isValidator
    (CallExpression
       (MemberExpression (Identifier "PropTypes") (Identifier "arrayOf"))
       [MemberExpression (Identifier "PropTypes") (Identifier "string")])
  = true
  /\ isRequiredAccess
       (CallExpression
          (MemberExpression (Identifier "PropTypes") (Identifier "arrayOf"))
          [MemberExpression (Identifier "PropTypes") (Identifier "string")])
     = false.
Proof.
  apply (convert_emits_validators (TSArrayType TSStringKeyword) "React").
  reflexivity.
Defined.

(** X4.  Whether a property was optional can be read off its assignment:
    for a validator that [convert] returned, the wrapped value is an
    [.isRequired] access exactly when the flag is not [true]. *)
Theorem required_flag_readable (type : TSType) (reactImportedName : string)
    (propType : PropType) (optional : Nullish bool) :
  convert type reactImportedName = Return (Some propType) ->
  isRequiredAccess (wrapIsRequired propType optional) = negb (truthy optional).
Proof.
  intros Hresult%convert_isValidator. unfold wrapIsRequired.
  destruct (truthy optional); [|reflexivity]. simpl.
  by apply isValidator_not_required.
Qed.

Lemma required_flag_readable_witness :
  isRequiredAccess
    (wrapIsRequired (MemberExpression (Identifier "PropTypes") (Identifier "func"))
       (Defined true))
  = false
  /\ isRequiredAccess
       (wrapIsRequired (MemberExpression (Identifier "PropTypes") (Identifier "func"))
          Null)
     = true.
Proof.
  split.
  - apply (required_flag_readable TSFunctionType "React"
             (MemberExpression (Identifier "PropTypes") (Identifier "func"))
             (Defined true)). reflexivity.
  - apply (required_flag_readable TSFunctionType "React"
             (MemberExpression (Identifier "PropTypes") (Identifier "func")) Null).
    reflexivity.
Defined.

(** No expression is a member access on itself. *)
Lemma member_access_differs (v property : Expression) :
  MemberExpression v property <> v.
Proof.
  revert property.
  induction v as [| | | |object IHobject accessed _| | |]; intros property;
    try discriminate.
  intros [= Hobject _]. by apply (IHobject accessed).
Qed.

(** X5.  [wrapIsRequired] keeps validators apart: under one flag, different
    validators give different results; and for one validator, the required
    and the optional form are never the same expression. *)
Theorem wrapIsRequired_injective (v v' : PropType) (optional : Nullish bool) :
  (wrapIsRequired v optional = wrapIsRequired v' optional -> v = v')
  /\ wrapIsRequired v (Defined false) <> wrapIsRequired v (Defined true).
Proof.
  split.
  - unfold wrapIsRequired. destruct (truthy optional); [done|].
    by intros [= ->].
  - apply member_access_differs.
Qed.

Lemma wrapIsRequired_injective_witness :
  MemberExpression (Identifier "PropTypes") (Identifier "string")
  = MemberExpression (Identifier "PropTypes") (Identifier "string")
  /\ wrapIsRequired (MemberExpression (Identifier "PropTypes") (Identifier "string"))
       (Defined false)
     <> wrapIsRequired (MemberExpression (Identifier "PropTypes") (Identifier "string"))
          (Defined true).
Proof.
  split.
  - apply (wrapIsRequired_injective
             (MemberExpression (Identifier "PropTypes") (Identifier "string"))
             (MemberExpression (Identifier "PropTypes") (Identifier "string"))
             Undefined). reflexivity.
  - apply (wrapIsRequired_injective
             (MemberExpression (Identifier "PropTypes") (Identifier "string"))
             (MemberExpression (Identifier "PropTypes") (Identifier "string"))
             Undefined).
Defined.

(** X6.  Parentheses around a type that is not itself parenthesized change
    nothing: the type converts as it does bare. *)
Theorem parenthesized_converts_alike (type : TSType) (reactImportedName : string) :
  isTSParenthesizedType type = false ->
  convert (TSParenthesizedType type) reactImportedName
  = convert type reactImportedName.
Proof.
  intros Hbare. rewrite !convert_equation. by destruct type.
Qed.

Lemma parenthesized_converts_alike_witness :
  convert (TSParenthesizedType (TSUnionType [TSStringKeyword; TSNumberKeyword]))
    "React"
  = convert (TSUnionType [TSStringKeyword; TSNumberKeyword]) "React".
Proof.
  apply (parenthesized_converts_alike
           (TSUnionType [TSStringKeyword; TSNumberKeyword]) "React").
  reflexivity.
Defined.

(** ** Lists of types and of properties *)

(** X7.  [convertArray] works member by member: on two lists one after the
    other it gives the two results one after the other, or the exception of
    the first of the two calls that throws; on the empty list it gives the
    empty list. *)
Theorem convertArray_app (types types' : list TSType) (reactImportedName : string) :
  convertArray (types ++ types') reactImportedName
  = match convertArray types reactImportedName with
    | Return out =>
        match convertArray types' reactImportedName with
        | Return out' => Return (out ++ out')
        | Throw e => Throw e
        end
    | Throw e => Throw e
    end
  /\ convertArray [] reactImportedName = Return [].
Proof.
  split; [|reflexivity]. rewrite !convertArray_collect. apply collect_app.
Qed.

(** X8.  When [convertArray] returns, it returns no more validators than it
    was given types, and as many exactly when every type converts to a
    validator. *)
Theorem convertArray_length (types : list TSType) (reactImportedName : string)
    (out : list PropType) :
  convertArray types reactImportedName = Return out ->
  length out <= length types
  /\ (length out = length types <->
      Forall (fun type => exists V, convert type reactImportedName = Return (Some V))
        types).
Proof.
  rewrite convertArray_collect. revert out.
  induction types as [|type rest IH]; intros out; simpl.
  - intros [= <-]. split; [simpl; lia|]. split; [constructor|done].
  - rewrite Forall_cons.
    destruct (convert type reactImportedName) as [[V|]|e] eqn:E; [| |done];
      (destruct (collect _ rest) as [out'|e']; [|done]);
      intros [= <-]; destruct (IH out' eq_refl) as [IHle IHeq]; simpl.
    + split; [lia|]. split.
      * intros [= Hlen]. split; [by exists V|]. by apply IHeq.
      * intros [_ Hrest]. f_equal. by apply IHeq.
    + split; [lia|]. split; [lia|]. by intros [[V [=]] _].
Qed.

Lemma convertArray_length_witness :
  length [MemberExpression (Identifier "PropTypes") (Identifier "string");
          MemberExpression (Identifier "PropTypes") (Identifier "func")]
  <= length [TSStringKeyword; TSFunctionType].
Proof.
  apply (convertArray_length [TSStringKeyword; TSFunctionType] "React").
  reflexivity.
Defined.

(** The key of the assignment a property contributes is its own. *)
Lemma propertyAssignment_key (reactImportedName : string)
    (property : TSPropertySignature) (assignment : ObjectProperty) :
  propertyAssignment reactImportedName property = Return (Some assignment) ->
  fst assignment = key property.
Proof.
  unfold propertyAssignment, objectProperty.
  destruct (typeAnnotation property) as [annotation|]; [|done].
  destruct (convert annotation reactImportedName) as [[propType|]|e]; [|done..].
  simpl. destruct (isPropertyKey (key property)); [|done].
  by intros [= <-].
Qed.

(** X9.  When [convertListToProps] returns, the keys of its assignments are
    keys of the properties it was given, in the same order and each at most
    as often: no key is invented, reordered or duplicated. *)
Theorem convertListToProps_keys (properties : list TSPropertySignature)
    (reactImportedName : string) (out : list ObjectProperty) :
  convertListToProps properties reactImportedName = Return out ->
  sublist (map fst out) (map key properties)
  /\ length out <= length properties.
Proof.
  rewrite convertListToProps_collect. revert out.
  induction properties as [|property rest IH]; intros out; simpl.
  - intros [= <-]. split; [constructor|simpl; lia].
  - destruct (propertyAssignment reactImportedName property)
      as [[assignment|]|e] eqn:E; [| |done];
      (destruct (collect _ rest) as [out'|e']; [|done]);
      intros [= <-]; destruct (IH out' eq_refl) as [IHkeys IHlen]; simpl.
    + rewrite (propertyAssignment_key _ _ _ E).
      split; [by constructor|lia].
    + split; [by constructor|lia].
Qed.

Lemma convertListToProps_keys_witness :
  sublist (map fst [(Identifier "b", MemberExpression (Identifier "PropTypes")
                                       (Identifier "func"))])
    (map key [mkPropertySignature (Identifier "a") None Undefined;
              mkPropertySignature (Identifier "b") (Some TSFunctionType)
                (Defined true)]).
Proof.
  apply (convertListToProps_keys
           [mkPropertySignature (Identifier "a") None Undefined;
            mkPropertySignature (Identifier "b") (Some TSFunctionType)
              (Defined true)]
           "React").
  reflexivity.
Defined.

(** X10.  [convertListToProps] works property by property: on two lists one
    after the other it gives the two results one after the other, or the
    exception of the first of the two calls that throws. *)
Theorem convertListToProps_app (properties properties' : list TSPropertySignature)
    (reactImportedName : string) :
  convertListToProps (properties ++ properties') reactImportedName
  = match convertListToProps properties reactImportedName with
    | Return out =>
        match convertListToProps properties' reactImportedName with
        | Return out' => Return (out ++ out')
        | Throw e => Throw e
        end
    | Throw e => Throw e
    end.
Proof. rewrite !convertListToProps_collect. apply collect_app. Qed.

(** X11.  Every value [convertListToProps] assigns is a validator that
    [convert] emits, or such a validator under [.isRequired]. *)
Theorem convertListToProps_values (properties : list TSPropertySignature)
    (reactImportedName : string) (out : list ObjectProperty) :
  convertListToProps properties reactImportedName = Return out ->
  Forall
    (fun assignment : ObjectProperty =>
       isValidator (snd assignment) = true
       \/ exists propType,
            snd assignment = MemberExpression propType (Identifier "isRequired")
            /\ isValidator propType = true)
    out.
Proof.
  rewrite convertListToProps_collect. revert out.
  induction properties as [|property rest IH]; intros out; simpl.
  - intros [= <-]. constructor.
  - unfold propertyAssignment at 1, objectProperty.
    destruct (typeAnnotation property) as [annotation|]; simpl.
    + destruct (convert annotation reactImportedName) as [[propType|]|e] eqn:E;
        simpl; [| |done].
      * apply convert_isValidator in E.
        destruct (isPropertyKey (key property)); simpl; [|done].
        destruct (collect _ rest) as [out'|e']; [|done].
        intros [= <-]. constructor; [|by apply IH].
        simpl. unfold wrapIsRequired.
        destruct (truthy (optional property)); [by left|].
        right. by exists propType.
      * destruct (collect _ rest) as [out'|e']; [|done].
        intros [= <-]. by apply IH.
    + destruct (collect _ rest) as [out'|e']; [|done].
      intros [= <-]. by apply IH.
Qed.

Lemma convertListToProps_values_witness :
  Forall
    (fun assignment : ObjectProperty =>
       isValidator (snd assignment) = true
       \/ exists propType,
            snd assignment = MemberExpression propType (Identifier "isRequired")
            /\ isValidator propType = true)
    [(Identifier "a",
      MemberExpression
        (MemberExpression (Identifier "PropTypes") (Identifier "string"))
        (Identifier "isRequired"))].
Proof.
  apply (convertListToProps_values
           [mkPropertySignature (Identifier "a") (Some TSStringKeyword) Undefined]
           "React").
  reflexivity.
Defined.

(** ** The entry point and the object it reads *)

Lemma joined_app {A : Type} (calls calls' : list (Result (list A))) :
  joined (calls ++ calls')
  = let* out := joined calls in let* out' := joined calls' in Return (out ++ out').
Proof.
  induction calls as [|[out|e] calls IH]; simpl.
  - by rewrite bind_Return.
  - rewrite IH. destruct (joined calls) as [out0|e]; simpl; [|done].
    destruct (joined calls') as [out'|e]; simpl; [|done].
    by rewrite app_assoc.
  - done.
Qed.

(** The loop of [convertToPropTypes], name by name. *)
Lemma convertToPropTypes_joined (types : gmap string (list TSPropertySignature))
    (typeNames : list string) (reactImportedName : string) :
  convertToPropTypes types typeNames reactImportedName
  = joined (map (groupAssignments types reactImportedName) typeNames).
Proof.
  unfold convertToPropTypes.
  match goal with
  | |- fold_left ?push _ _ = _ =>
      enough (forall acc,
                 fold_left push typeNames acc
                 = let* out := acc in
                   let* out' :=
                     joined (map (groupAssignments types reactImportedName)
                               typeNames) in
                   Return (out ++ out'))
        as Hacc by (rewrite Hacc; simpl; apply bind_Return)
  end.
  induction typeNames as [|typeName rest IH]; intros acc; simpl.
  - destruct acc; simpl; [by rewrite app_nil_r|done].
  - rewrite IH. destruct acc as [out|e]; simpl; [|done].
    unfold groupAssignments at 2.
    destruct (types !! typeName) as [properties|].
    + destruct (convertListToProps properties reactImportedName) as [out1|e];
        simpl; [|done].
      destruct (joined _) as [out2|e]; simpl; [|done]. by rewrite app_assoc.
    + destruct (isObjectPrototypeName typeName); simpl; [done|].
      by destruct (joined _).
Qed.

(** X12.  [convertToPropTypes] works name by name: for two lists of names one
    after the other it gives the two results one after the other, or the
    exception of the first of the two calls that throws, so a name listed
    twice contributes twice; for no names it gives no assignment. *)
Theorem convertToPropTypes_app (types : gmap string (list TSPropertySignature))
    (typeNames typeNames' : list string) (reactImportedName : string) :
  convertToPropTypes types (typeNames ++ typeNames') reactImportedName
  = match convertToPropTypes types typeNames reactImportedName with
    | Return out =>
        match convertToPropTypes types typeNames' reactImportedName with
        | Return out' => Return (out ++ out')
        | Throw e => Throw e
        end
    | Throw e => Throw e
    end
  /\ convertToPropTypes types [] reactImportedName = Return [].
Proof.
  split; [|reflexivity].
  rewrite !convertToPropTypes_joined, map_app. apply joined_app.
Qed.

(** X13.  [convertToPropTypes] reads the object at the listed names only:
    two objects that hold the same under every listed name give the same
    outcome, whatever else they hold. *)
Theorem convertToPropTypes_reads_listed
    (types types' : gmap string (list TSPropertySignature))
    (typeNames : list string) (reactImportedName : string) :
  Forall (fun typeName => types !! typeName = types' !! typeName) typeNames ->
  convertToPropTypes types typeNames reactImportedName
  = convertToPropTypes types' typeNames reactImportedName.
Proof.
  intros Hagree. rewrite !convertToPropTypes_joined. f_equal.
  induction Hagree as [|typeName rest Hhere _ IH]; [done|].
  simpl. unfold groupAssignments at 1 3. by rewrite Hhere, IH.
Qed.

Lemma convertToPropTypes_reads_listed_witness :
  convertToPropTypes
    {["Props" := [mkPropertySignature (Identifier "a") (Some TSStringKeyword) Null]]}
    ["Props"] "React"
  = convertToPropTypes
      (<["State" := []]>
         {["Props" := [mkPropertySignature (Identifier "a") (Some TSStringKeyword)
                         Null]]})
      ["Props"] "React".
Proof.
  apply (convertToPropTypes_reads_listed
           {["Props" := [mkPropertySignature (Identifier "a") (Some TSStringKeyword)
                           Null]]}
           (<["State" := []]>
              {["Props" := [mkPropertySignature (Identifier "a")
                              (Some TSStringKeyword) Null]]})
           ["Props"] "React").
  repeat constructor.
Defined.

(** X14.  A group stored under a name and selected by that name gives exactly
    the outcome of [convertListToProps] on it.  A name that the object does
    not hold gives nothing when no object inherits it, and makes the call
    throw when it is the name of a property of [Object.prototype]; so it is
    with a name removed from the object, and with every name in the empty
    object. *)
Theorem convertToPropTypes_lookup (types : gmap string (list TSPropertySignature))
    (typeName : string) (properties : list TSPropertySignature)
    (reactImportedName : string) :
  convertToPropTypes (<[typeName := properties]> types) [typeName] reactImportedName
  = convertListToProps properties reactImportedName
  /\ convertToPropTypes (delete typeName types) [typeName] reactImportedName
     = (if isObjectPrototypeName typeName then Throw TypeError else Return [])
  /\ forall typeNames,
       convertToPropTypes ∅ typeNames reactImportedName
       = if existsb isObjectPrototypeName typeNames
         then Throw TypeError
         else Return [].
Proof.
  split; [|split].
  - rewrite convertToPropTypes_joined. simpl. unfold groupAssignments.
    rewrite lookup_insert_eq.
    destruct (convertListToProps properties reactImportedName); simpl; [|done].
    by rewrite app_nil_r.
  - rewrite convertToPropTypes_joined. simpl. unfold groupAssignments.
    rewrite lookup_delete_eq. by destruct (isObjectPrototypeName typeName).
  - intros typeNames. rewrite convertToPropTypes_joined.
    induction typeNames as [|name rest IH]; [done|].
    simpl. unfold groupAssignments at 1. rewrite lookup_empty, IH.
    destruct (isObjectPrototypeName name); [done|].
    by destruct (existsb isObjectPrototypeName rest).
Qed.

(** [collect] never lengthens a list. *)
Lemma convertListToProps_length (properties : list TSPropertySignature)
    (reactImportedName : string) (out : list ObjectProperty) :
  convertListToProps properties reactImportedName = Return out ->
  length out <= length properties.
Proof. rewrite convertListToProps_collect. apply collect_length. Qed.

(** X15.  When [convertToPropTypes] returns, the number of its assignments
    is at most the number of properties in the groups of the listed names. *)
Theorem convertToPropTypes_length (types : gmap string (list TSPropertySignature))
    (typeNames : list string) (reactImportedName : string)
    (out : list ObjectProperty) :
  convertToPropTypes types typeNames reactImportedName = Return out ->
  length out
  <= length (concat (map (fun typeName => default [] (types !! typeName)) typeNames)).
Proof.
  rewrite convertToPropTypes_joined. revert out.
  induction typeNames as [|typeName rest IH]; intros out; simpl.
  - intros [= <-]. simpl. lia.
  - unfold groupAssignments at 1.
    destruct (types !! typeName) as [properties|]; simpl.
    + destruct (convertListToProps properties reactImportedName) as [out1|e] eqn:E;
        [|done].
      destruct (joined _) as [out2|e]; [|done].
      intros [= <-]. rewrite !length_app.
      pose proof (convertListToProps_length _ _ _ E). specialize (IH out2 eq_refl).
      lia.
    + destruct (isObjectPrototypeName typeName); [done|].
      destruct (joined _) as [out2|e]; [|done].
      intros [= <-]. by apply IH.
Qed.

Lemma convertToPropTypes_length_witness :
  length [(Identifier "a",
           MemberExpression
             (MemberExpression (Identifier "PropTypes") (Identifier "string"))
             (Identifier "isRequired"))]
  <= length
       (concat
          (map (fun typeName =>
                  default []
                    (({["Props" :=
                          [mkPropertySignature (Identifier "a")
                             (Some TSStringKeyword) Null;
                           mkPropertySignature (Identifier "b") None Null]]}
                      : gmap string (list TSPropertySignature)) !! typeName))
             ["Props"; "State"])).
Proof.
  apply (convertToPropTypes_length
           {["Props" :=
               [mkPropertySignature (Identifier "a") (Some TSStringKeyword) Null;
                mkPropertySignature (Identifier "b") None Null]]}
           ["Props"; "State"] "React").
  vm_compute. reflexivity.
Defined.

(** ** At most one test holds *)

(** X16.  At most one of the five tests on the name of a type reference
    holds, whatever the name and the alias: no name is at once a node type,
    an element type, [Ref], a handler or an event, so the result does not
    depend on the order in which the source makes the tests. *)
Theorem reference_tests_exclusive (name reactImportedName : string) :
  length (List.filter (fun test : bool => test) (referenceTests name reactImportedName))
  <= 1.
Proof.
  unfold referenceTests.
  destruct (matchesNode name reactImportedName) eqn:Hnode.
  { destruct (node_excludes _ _ Hnode) as (-> & -> & -> & ->). simpl. lia. }
  destruct (matchesElement name reactImportedName) eqn:Helement.
  { destruct (element_excludes _ _ Helement) as (-> & -> & ->). simpl. lia. }
  destruct (matchesRef name reactImportedName) eqn:Href.
  { destruct (ref_excludes _ _ Href) as (-> & ->). simpl. lia. }
  destruct (endsWith name "Handler") eqn:Hhandler.
  { rewrite (handler_excludes _ Hhandler). simpl. lia. }
  destruct (endsWith name "Event"); simpl; lia.
Qed.

(** ** The alias and unqualified references *)

(** Induction on a type through the types directly inside it. *)
Lemma TSType_parts_ind (P : TSType -> Prop) :
  (forall type, Forall P (parts type) -> P type) -> forall type, P type.
Proof.
  intros step. fix IH 1. intros type. apply step.
  destruct type
    as [| | | | |typeName args|elementType|members|types|types
       |inner|literal|kind]; simpl; try constructor; try apply IH;
    try constructor.
  - induction members as [|member rest IHrest]; csimpl; [constructor|].
    destruct member as [[key [annotation|] optional]|[annotation|]| | |];
      simpl; try apply IHrest; constructor; (apply IH || apply IHrest).
  - induction types as [|type rest IHrest]; constructor; [apply IH|apply IHrest].
  - induction types as [|type rest IHrest]; constructor; [apply IH|apply IHrest].
Qed.

Section AliasIndependence.

Variables alias alias' : string.

(** A name without a dot is never the alias, a dot and a type. *)
Lemma unqualified_match (name type : string) :
  dotfree name = true ->
  isReactTypeMatch name type alias = isReactTypeMatch name type alias'.
Proof.
  intros Hname. unfold isReactTypeMatch.
  assert (forall q, String.eqb name (q +:+ "." +:+ type) = false) as Hq.
  { intros q. destruct (String.eqb name (q +:+ "." +:+ type)) eqn:E; [|done].
    apply String.eqb_eq in E. by rewrite E, dotfree_dotted in Hname. }
  by rewrite !Hq.
Qed.

(** The types that convert alike under the two aliases. *)
Let alike (type : TSType) : Prop :=
  unqualified type = true -> convert type alias = convert type alias'.

Lemma convertArray_alike (types : list TSType) :
  Forall alike types -> forallb unqualified types = true ->
  convertArray types alias = convertArray types alias'.
Proof.
  rewrite !convertArray_collect. intros Hall Hun. apply collect_ext.
  induction Hall as [|type rest Htype _ IH]; [constructor|].
  simpl in Hun. apply andb_true_iff in Hun as [Hhere Hrest].
  constructor; [by apply Htype|by apply IH].
Qed.

Lemma shape_alike (members : list TSTypeElement) :
  Forall alike (omap memberType members) ->
  forallb
    (fun member : TSTypeElement =>
       match member with
       | TSPropertySignatureNode property =>
           match typeAnnotation property with
           | Some annotation => unqualified annotation
           | None => true
           end
       | _ => true
       end)
    members = true ->
  convertListToProps (propertySignatures members) alias
  = convertListToProps (propertySignatures members) alias'.
Proof.
  rewrite !convertListToProps_collect. intros Hparts Hun. apply collect_ext.
  induction members as [|member rest IH]; [constructor|].
  simpl in Hun. apply andb_true_iff in Hun as [Hhere Hrest].
  destruct member as [[key [annotation|] optional]|[annotation|]| | |];
    csimpl in *; try (by apply IH).
  - apply Forall_cons in Hparts as [Hannotation Hparts].
    constructor; [|by apply IH].
    unfold propertyAssignment. simpl. by rewrite (Hannotation Hhere).
  - constructor; [done|by apply IH].
  - apply Forall_cons in Hparts as [_ Hparts]. by apply IH.
Qed.

Lemma unqualified_alike (type : TSType) : alike type.
Proof.
  induction type as [type IH] using TSType_parts_ind.
  destruct type
    as [| | | | |typeName args|elementType|members|types|types
       |inner|literal|kind];
    intros Hun; try reflexivity.
  - rewrite !convert_reference. cbv zeta.
    unfold matchesNode, matchesElement, matchesRef.
    assert (forall type,
               isReactTypeMatch (getTypeName typeName) type alias
               = isReactTypeMatch (getTypeName typeName) type alias') as Hmatch
      by (intros type; by apply unqualified_match).
    by rewrite !Hmatch.
  - apply Forall_inv in IH. rewrite !convert_array_cases. by rewrite (IH Hun).
  - rewrite !convert_literal_cases.
    destruct members as [|[property|[valueType|]| | |] [|member rest]];
      try reflexivity;
      try (by rewrite (shape_alike _ IH Hun)).
    apply Forall_inv in IH. by rewrite (IH Hun).
  - destruct (convert_union_cases alias types) as [-> _].
    destruct (convert_union_cases alias' types) as [-> _].
    by rewrite (convertArray_alike types IH Hun).
  - destruct (convert_union_cases alias types) as [Hunion ->].
    destruct (convert_union_cases alias' types) as [Hunion' ->].
    rewrite Hunion, Hunion'.
    by rewrite (convertArray_alike types IH Hun).
  - apply Forall_inv in IH.
    destruct (isTSParenthesizedType inner) eqn:Hparen.
    { by destruct inner. }
    rewrite !(convert_equation _ (TSParenthesizedType inner)).
    unfold removeParens. rewrite !(classify_convert _ _ Hparen).
    apply IH. revert Hun. by destruct inner.
Qed.

End AliasIndependence.

(** X17.  The alias matters for qualified names only.  If no type reference
    has a dotted name at the places of a type listed with [unqualified] (the
    type itself under at most one parenthesis, the element type of an array,
    the value type of an index signature that is a lone member, the
    annotations of the property signatures of any other type literal, the
    members of a union or intersection, and the same places inside those),
    the type converts to the same outcome under every two aliases. *)
Theorem unqualified_alias_independent (type : TSType) (alias alias' : string) :
  unqualified type = true ->
  convert type alias = convert type alias'.
Proof. apply unqualified_alike. Qed.

Lemma unqualified_alias_independent_witness :
  convert
    (TSTypeLiteral
       [TSIndexSignature
          (Some (TSTypeReference (TSQualifiedName (EntityIdentifier "A") "ReactNode")
                   None));
        TSPropertySignatureNode
          (mkPropertySignature (Identifier "children")
             (Some (TSParenthesizedType
                      (TSTypeReference (EntityIdentifier "ReactNode") None)))
             Undefined)])
    "A"
  = convert
      (TSTypeLiteral
         [TSIndexSignature
            (Some (TSTypeReference (TSQualifiedName (EntityIdentifier "A") "ReactNode")
                     None));
          TSPropertySignatureNode
            (mkPropertySignature (Identifier "children")
               (Some (TSParenthesizedType
                        (TSTypeReference (EntityIdentifier "ReactNode") None)))
               Undefined)])
      "B".
Proof.
  apply (unqualified_alias_independent
           (TSTypeLiteral
              [TSIndexSignature
                 (Some (TSTypeReference
                          (TSQualifiedName (EntityIdentifier "A") "ReactNode") None));
               TSPropertySignatureNode
                 (mkPropertySignature (Identifier "children")
                    (Some (TSParenthesizedType
                             (TSTypeReference (EntityIdentifier "ReactNode") None)))
                    Undefined)])
           "A" "B").
  reflexivity.
Defined.

(** ** Unions that convert to nothing *)

Lemma omap_literalOf_nil (types : list TSType) :
  forallb isTSLiteralType types = true -> omap literalOf types = [] -> types = [].
Proof.
  intros Hall Hnil. rewrite (all_literals types Hall). by rewrite Hnil.
Qed.

(** X18.  A union or intersection type converts to nothing in two situations
    only: it has no member; or one of its members is not a literal type and
    every one of its members converts to nothing. *)
Theorem union_null_iff (types : list TSType) (reactImportedName : string) :
  (convert (TSUnionType types) reactImportedName = Return None <->
   types = []
   \/ (forallb isTSLiteralType types = false
       /\ Forall (fun type => convert type reactImportedName = Return None) types))
  /\ convert (TSIntersectionType types) reactImportedName
     = convert (TSUnionType types) reactImportedName.
Proof.
  split; [|reflexivity].
  destruct (convert_union_cases reactImportedName types) as [-> _].
  rewrite convertArray_collect.
  destruct (forallb isTSLiteralType types) eqn:Hall.
  - destruct (omap literalOf types) as [|literal rest] eqn:Hliterals.
    + split; [|done]. intros _. left. by apply omap_literalOf_nil.
    + split; [done|]. intros [->|[? _]]; done.
  - destruct (collect (fun type => convert type reactImportedName) types)
      as [[|prop rest]|e] eqn:Hargs.
    + apply collect_nil_iff in Hargs. split; [|done]. intros _. by right.
    + split; [done|]. intros [->|[_ Hnone]]; [done|].
      apply collect_nil_iff in Hnone. congruence.
    + split; [done|]. intros [->|[_ Hnone]]; [done|].
      apply collect_nil_iff in Hnone. congruence.
Qed.

Lemma union_null_iff_witness :
  convert (TSUnionType [TSLiteralType (StringLiteral "a"); TSOtherType "TSAnyKeyword"])
    "React"
  = Return None.
Proof.
  apply (proj1 (union_null_iff
                  [TSLiteralType (StringLiteral "a"); TSOtherType "TSAnyKeyword"]
                  "React")).
  right. split; [reflexivity|]. repeat constructor.
Defined.

(** ** When the converter throws *)

Lemma collect_total {A B : Type} (f : A -> Result (option B)) (l : list A) :
  Forall (fun x => exists r, f x = Return r) l -> exists out, collect f l = Return out.
Proof.
  induction 1 as [|x l [r Hx] _ [out IH]]; simpl; [by eexists|].
  rewrite Hx, IH. by eexists.
Qed.

Section PlainKeys.

Variable reactImportedName : string.

(** The types on which [convert] returns. *)
Let returns (type : TSType) : Prop :=
  plainKeys type = true -> exists result, convert type reactImportedName = Return result.

Lemma plain_properties_return (returning : TSType -> Prop)
    (Hreturning : forall type, returning type ->
                               exists result, convert type reactImportedName = Return result)
    (properties : list TSPropertySignature) :
  Forall (fun property => isPropertyKey (key property) = true
                          /\ from_option returning True (typeAnnotation property))
    properties ->
  convertListToProps properties reactImportedName
  = Return (omap (assignmentOf reactImportedName) properties).
Proof.
  rewrite convertListToProps_collect.
  induction 1 as [|[key [annotation|] optional] rest [Hkey Hannotation] _ IH];
    [done| |]; simpl in *.
  - unfold propertyAssignment at 1, assignmentOf at 1, objectProperty. simpl.
    destruct (Hreturning _ Hannotation) as [[propType|] ->]; simpl.
    + rewrite Hkey, IH. done.
    + by rewrite IH.
  - by rewrite IH.
Qed.

Lemma plainKeys_returns (type : TSType) : returns type.
Proof.
  induction type as [type IH] using TSType_parts_ind.
  destruct type
    as [| | | | |typeName args|elementType|members|types|types
       |inner|literal|kind];
    intros Hplain; try (eexists; reflexivity).
  - rewrite convert_reference. by eexists.
  - apply Forall_inv in IH. rewrite convert_array_cases.
    destruct (IH Hplain) as [[V|] ->]; by eexists.
  - rewrite convert_literal_cases.
    assert (exists out,
               convertListToProps (propertySignatures members) reactImportedName
               = Return out) as [out Hout].
    { rewrite convertListToProps_collect. apply collect_total.
      simpl in IH, Hplain. clear - IH Hplain.
      induction members as [|member rest IHrest]; [constructor|].
      simpl in Hplain. apply andb_true_iff in Hplain as [Hhere Hrest].
      destruct member as [[key [annotation|] optional]|[annotation|]| | |];
        csimpl in *; try (by apply IHrest).
      - apply Forall_cons in IH as [Hannotation IH].
        apply andb_true_iff in Hhere as [Hkey Hhere].
        constructor; [|by apply IHrest].
        unfold propertyAssignment, objectProperty. simpl.
        destruct (Hannotation Hhere) as [[propType|] ->]; simpl;
          [rewrite Hkey|]; by eexists.
      - constructor; [by eexists|by apply IHrest].
      - apply Forall_cons in IH as [_ IH]. by apply IHrest. }
    destruct members as [|[property|[valueType|]| | |] [|member rest]];
      try (by eexists); try (rewrite Hout; by eexists).
    apply Forall_inv in IH. simpl in Hplain. rewrite andb_true_r in Hplain.
    destruct (IH Hplain) as [[result|] ->]; by eexists.
  - destruct (convert_union_cases reactImportedName types) as [-> _].
    destruct (forallb isTSLiteralType types);
      [destruct (omap literalOf types); by eexists|].
    rewrite convertArray_collect.
    destruct (collect_total (fun type => convert type reactImportedName) types)
      as [[|prop out] ->]; try by eexists.
    simpl in IH, Hplain. clear - IH Hplain.
    induction IH as [|type rest Htype _ IHrest]; [constructor|].
    simpl in Hplain. apply andb_true_iff in Hplain as [Hhere Hrest].
    constructor; [by apply Htype|by apply IHrest].
  - destruct (convert_union_cases reactImportedName types) as [Hunion ->].
    rewrite Hunion.
    destruct (forallb isTSLiteralType types);
      [destruct (omap literalOf types); by eexists|].
    rewrite convertArray_collect.
    destruct (collect_total (fun type => convert type reactImportedName) types)
      as [[|prop out] ->]; try by eexists.
    simpl in IH, Hplain. clear - IH Hplain.
    induction IH as [|type rest Htype _ IHrest]; [constructor|].
    simpl in Hplain. apply andb_true_iff in Hplain as [Hhere Hrest].
    constructor; [by apply Htype|by apply IHrest].
  - apply Forall_inv in IH. rewrite convert_equation. unfold removeParens.
    destruct (isTSParenthesizedType inner) eqn:Hparen.
    { destruct inner; try discriminate. by eexists. }
    rewrite (classify_convert _ _ Hparen). by apply IH.
Qed.

End PlainKeys.

(** X19.  [convert] throws only on account of a key: on a type in which
    every property signature of every type literal (the type arguments of
    references apart) has an identifier, a string literal or a numeric literal
    for key, [convert] returns, a validator or nothing, under every alias. *)
Theorem convert_returns_with_plain_keys (type : TSType) (reactImportedName : string) :
  plainKeys type = true ->
  exists result, convert type reactImportedName = Return result.
Proof. apply plainKeys_returns. Qed.

Lemma convert_returns_with_plain_keys_witness :
  exists result,
    convert
      (TSArrayType
         (TSTypeLiteral
            [TSPropertySignatureNode
               (mkPropertySignature (StringLiteral "a-b")
                  (Some (TSUnionType [TSStringKeyword; TSOtherType "TSNullKeyword"]))
                  (Defined true));
             TSMethodSignature (Identifier "m")]))
      "React"
    = Return result.
Proof.
  apply (convert_returns_with_plain_keys
           (TSArrayType
              (TSTypeLiteral
                 [TSPropertySignatureNode
                    (mkPropertySignature (StringLiteral "a-b")
                       (Some (TSUnionType
                                [TSStringKeyword; TSOtherType "TSNullKeyword"]))
                       (Defined true));
                  TSMethodSignature (Identifier "m")]))
           "React").
  reflexivity.
Defined.

(** X20.  Away from the two ways to throw, [convertToPropTypes] does what is
    expected of it.  If every listed name is held by the object or is not the
    name of a property of [Object.prototype], and every property of the
    listed groups has an accepted key, and so for the properties inside its
    annotation, then [convertToPropTypes] returns the concatenation, in the
    order of the listed names, of the assignments of each group, names the
    object does not hold adding nothing; within a group the members keep
    their order, a member without annotation or whose annotation converts to
    nothing gives no assignment, and any other member gives exactly one: its
    own key with the validator of its annotation, under [.isRequired] unless
    its [optional] flag is [true]. *)
Theorem convertToPropTypes_returns (types : gmap string (list TSPropertySignature))
    (typeNames : list string) (reactImportedName : string) :
  Forall (fun typeName => is_Some (types !! typeName)
                          \/ isObjectPrototypeName typeName = false) typeNames ->
  Forall (fun typeName =>
            Forall (fun property => plainProperty property = true)
              (default [] (types !! typeName))) typeNames ->
  convertToPropTypes types typeNames reactImportedName
  = Return (concat (map (fun typeName =>
                           omap (assignmentOf reactImportedName)
                             (default [] (types !! typeName)))
                      typeNames))
  /\ (forall key optional,
         assignmentOf reactImportedName (mkPropertySignature key None optional) = None)
  /\ (forall key annotation optional,
         convert annotation reactImportedName = Return None ->
         assignmentOf reactImportedName
           (mkPropertySignature key (Some annotation) optional) = None)
  /\ (forall key annotation optional propType,
         convert annotation reactImportedName = Return (Some propType) ->
         assignmentOf reactImportedName
           (mkPropertySignature key (Some annotation) optional)
         = Some (key, if truthy optional then propType
                      else MemberExpression propType (Identifier "isRequired"))).
Proof.
  intros Hnames Hplain. split.
  - rewrite convertToPropTypes_joined.
    induction Hnames as [|typeName rest Hname _ IH]; [done|].
    apply Forall_cons in Hplain as [Hgroup Hplain].
    simpl. rewrite (IH Hplain). unfold groupAssignments.
    destruct (types !! typeName) as [properties|] eqn:Hlookup; simpl in *.
    + rewrite (plain_properties_return reactImportedName
                 (fun type => plainKeys type = true)
                 (plainKeys_returns reactImportedName)); [done|].
      eapply Forall_impl; [exact Hgroup|].
      intros property [Hkey Hannotation]%andb_true_iff. split; [done|].
      by destruct (typeAnnotation property).
    + destruct Hname as [[? [=]]| ->]. done.
  - split; [done|]. split.
    + intros key annotation optional Hnone. unfold assignmentOf. simpl.
      by rewrite Hnone.
    + intros key annotation optional propType Hsome. unfold assignmentOf. simpl.
      by rewrite Hsome.
Qed.

Lemma convertToPropTypes_returns_witness :
  convertToPropTypes
    {["Props" :=
        [mkPropertySignature (Identifier "label") (Some TSStringKeyword)
           (Defined false);
         mkPropertySignature (Identifier "onClick") (Some TSFunctionType)
           (Defined true);
         mkPropertySignature (Identifier "data") (Some (TSOtherType "TSAnyKeyword"))
           Undefined;
         mkPropertySignature (Identifier "items") (Some (TSArrayType TSStringKeyword))
           Undefined]]}
    ["Missing"; "Props"] "React"
  = Return
      [(Identifier "label",
        MemberExpression
          (MemberExpression (Identifier "PropTypes") (Identifier "string"))
          (Identifier "isRequired"));
       (Identifier "onClick",
        MemberExpression (Identifier "PropTypes") (Identifier "func"));
       (Identifier "items",
        MemberExpression
          (CallExpression
             (MemberExpression (Identifier "PropTypes") (Identifier "arrayOf"))
             [MemberExpression (Identifier "PropTypes") (Identifier "string")])
          (Identifier "isRequired"))].
Proof.
  refine (eq_trans
            (proj1 (convertToPropTypes_returns
                      {["Props" :=
                          [mkPropertySignature (Identifier "label")
                             (Some TSStringKeyword) (Defined false);
                           mkPropertySignature (Identifier "onClick")
                             (Some TSFunctionType) (Defined true);
                           mkPropertySignature (Identifier "data")
                             (Some (TSOtherType "TSAnyKeyword")) Undefined;
                           mkPropertySignature (Identifier "items")
                             (Some (TSArrayType TSStringKeyword)) Undefined]]}
                      ["Missing"; "Props"] "React" _ _)) _).
  - constructor; [right; reflexivity|].
    constructor; [left; vm_compute; eexists; reflexivity|constructor].
  - vm_compute. repeat constructor.
  - vm_compute. reflexivity.
Defined.

(** ** The scenarios of the specification *)

Section Scenarios.

Let annotated (name : string) (type : TSType) (optional : bool)
  : TSPropertySignature :=
  mkPropertySignature (Identifier name) (Some type) (Defined optional).

Let Props : list TSPropertySignature :=
  [annotated "label" TSStringKeyword false;
   annotated "onClick" TSFunctionType true;
   annotated "items" (TSArrayType TSStringKeyword) false].

Example scenario_props :
  convertToPropTypes {["Props" := Props]} ["Missing"; "Props"] "React"
  = Return
      [(Identifier "label",
        MemberExpression
          (MemberExpression (Identifier "PropTypes") (Identifier "string"))
          (Identifier "isRequired"));
       (Identifier "onClick",
        MemberExpression (Identifier "PropTypes") (Identifier "func"));
       (Identifier "items",
        MemberExpression
          (CallExpression
             (MemberExpression (Identifier "PropTypes") (Identifier "arrayOf"))
             [MemberExpression (Identifier "PropTypes") (Identifier "string")])
          (Identifier "isRequired"))].
Proof. vm_compute. reflexivity. Qed.

Example scenario_shape :
  convert
    (TSTypeLiteral [TSPropertySignatureNode (annotated "foo" TSStringKeyword false)])
    "React"
  = Return
      (Some (CallExpression
               (MemberExpression (Identifier "PropTypes") (Identifier "shape"))
               [ObjectExpression
                  [(Identifier "foo",
                    MemberExpression
                      (MemberExpression (Identifier "PropTypes") (Identifier "string"))
                      (Identifier "isRequired"))]]))
  /\ convert (TSTypeLiteral []) "React"
     = Return (Some (MemberExpression (Identifier "PropTypes") (Identifier "object")))
  /\ convert (TSTypeLiteral [TSIndexSignature (Some TSNumberKeyword)]) "React"
     = Return
         (Some (CallExpression
                  (MemberExpression (Identifier "PropTypes") (Identifier "objectOf"))
                  [MemberExpression (Identifier "PropTypes") (Identifier "number")]))
  /\ convert
       (TSTypeLiteral
          [TSPropertySignatureNode
             (mkPropertySignature
                (MemberExpression (Identifier "Symbol") (Identifier "iterator"))
                (Some TSStringKeyword) Undefined);
           TSPropertySignatureNode (annotated "foo" TSStringKeyword true)])
       "React"
     = Throw TypeError.
Proof. repeat split. Qed.

Example scenario_names :
  getTypeName (TSQualifiedName (EntityIdentifier "React") "MouseEvent")
  = "React.MouseEvent"
  /\ endsWith "React.MouseEvent" "Event" = true
  /\ endsWith "React.MouseEvent" "Handler" = false
  /\ endsWith "Event" "Handler" = false
  /\ convert (TSTypeReference (EntityIdentifier "CustomType") None) "React"
     = Return None
  /\ convert (TSTypeReference (TSQualifiedName (EntityIdentifier "JSX") "Element") None)
       "React"
     = Return (Some (MemberExpression (Identifier "PropTypes") (Identifier "element"))).
Proof. repeat split. Qed.

End Scenarios.
